(** * PsrSigSim: the telescope observation pipeline and the signal base class

    A shallow embedding of [psrsigsim/telescope/telescope.py]
    ([Telescope.add_system], [Telescope.observe]) and of
    [psrsigsim/signal/signal.py] ([BaseSignal.__init__],
    [BaseSignal._set_draw_norm]).

    Conventions of the embedding.
    - The floats that [observe] computes with (sample rate, observation
      time, sub-integration length and the two sample intervals) are IEEE
      754 doubles ([pyfloat]): a rational, an infinity or NaN ([-0.0] is not
      kept apart from [0.0], no test of the code tells them apart).  [/],
      [*], [+] and [-] round the exact result to the nearest double, ties to
      even; [%] and [//] follow the steps of CPython's [float_rem] and
      [float_floor_div]; comparisons are exact.  Python integers are [Z].
      The samples of an array and the clip limits are the rationals that
      the doubles stand for, and so are the magnitudes of the quantities
      that the constructor of the telescope makes.
    - Python objects are mutable: the telescope ([self]), the signal passed to
      [observe], its data array and every array created since live in a
      [World]; arrays are referred to by location, so that copying and
      in-place update are distinguished.
    - Exceptions are values of [exn]; a computation is a function from the
      world to a [Result] and the world it leaves behind (an exception keeps
      the side effects made before it).
    - Code that [observe] calls but that is not part of the two modules
      ([utils.down_sample], [utils.rebin], the casts of numpy other than the
      truncating cast to [np.int8] of a value in its range) is taken as the
      fields of the class [Collaborators]; [scipy.stats.norm.ppf] is a
      variable of the section that uses it.  The class [Telescope] defines no
      method [radiometer_noise]: the attribute is missing. *)

From Stdlib Require Import ZArith QArith Qabs Qround Lia Lqa String.
From stdpp Require Import base option list gmap strings.

Local Open Scope Z_scope.
Local Open Scope string_scope.
Local Open Scope list_scope.

(** ** Python values shared by both modules *)

Inductive exn : Type :=
| KeyError (key : option string)
| AttributeError (attr : string)
| ZeroDivisionError
| ValueError (msg : string)
| IndexError (msg : string)
| NameError (name : string)
| OverflowError (msg : string)
| CollaboratorError (callee : string).

Inductive Result (A : Type) : Type :=
| Ok (a : A)
| Raise (e : exn).
Arguments Ok {A} a.
Arguments Raise {A} e.

(** *** Floats *)

Definition Qlt_bool (a b : Q) : bool := negb (Qle_bool b a).

(** Truncation toward zero *)
Definition Qtruncate (x : Q) : Z := Z.quot (Qnum x) (Z.pos (Qden x)).

(** A double: the rational it stands for, an infinity or NaN.  The
    operations below are defined on every rational; what they return is a
    double whenever their arguments are. *)
Inductive pyfloat : Type :=
| Fin (q : Q)
| PInf
| NInf
| NaN.

(** [2 ^ e] *)
Definition pow2 (e : Z) : Q :=
  if (0 <=? e)%Z then inject_Z (2 ^ e) else 1 # Z.to_pos (2 ^ (- e)).

(** The integer nearest to [q], the even one of two that are equally near. *)
Definition round_half_even (q : Q) : Z :=
  let f := Qfloor q in
  match ((q - inject_Z f) ?= 1 # 2)%Q with
  | Lt => f
  | Gt => (f + 1)%Z
  | Eq => if Z.even f then f else (f + 1)%Z
  end.

(** [floor (log2 a)] for a positive [a] *)
Definition ilog2 (a : Q) : Z :=
  let k := (Z.log2 (Qnum a) - Z.log2 (Z.pos (Qden a)))%Z in
  if Qle_bool (pow2 k) a then k else (k - 1)%Z.

(** The double nearest to [q]: 53 significant bits, exponents from
    [-1074]; what rounds to [2 ^ 1024] or more is an infinity. *)
Definition round64 (q : Q) : pyfloat :=
  if Qeq_bool q 0 then Fin 0
  else
    let a := Qabs q in
    let e := Z.max (ilog2 a - 52) (-1074) in
    let m := round_half_even (a / pow2 e) in
    let v := (inject_Z m * pow2 e)%Q in
    if Qle_bool (pow2 1024) v then (if Qlt_bool q 0 then NInf else PInf)
    else Fin (Qred (if Qlt_bool q 0 then - v else v)).

(** The double that a decimal literal denotes. *)
Definition fl (q : Q) : pyfloat := round64 q.

Definition is_zero (x : pyfloat) : bool :=
  match x with
  | Fin q => Qeq_bool q 0
  | _ => false
  end.

Definition is_negative (x : pyfloat) : bool :=
  match x with
  | Fin q => Qlt_bool q 0
  | NInf => true
  | _ => false
  end.

(** [a == b] and [a < b]; [a > b] is [b < a] *)
Definition feq (a b : pyfloat) : bool :=
  match a, b with
  | Fin x, Fin y => Qeq_bool x y
  | PInf, PInf => true
  | NInf, NInf => true
  | _, _ => false
  end.

Definition flt (a b : pyfloat) : bool :=
  match a, b with
  | NaN, _ | _, NaN => false
  | Fin x, Fin y => Qlt_bool x y
  | NInf, NInf => false
  | NInf, _ => true
  | _, NInf => false
  | PInf, _ => false
  | _, PInf => true
  end.

Definition infinity (negative : bool) : pyfloat :=
  if negative then NInf else PInf.

Definition fmul (a b : pyfloat) : pyfloat :=
  match a, b with
  | NaN, _ | _, NaN => NaN
  | Fin x, Fin y => round64 (x * y)
  | _, _ =>
      if (is_zero a || is_zero b)%bool then NaN
      else infinity (xorb (is_negative a) (is_negative b))
  end.

(** [a / b] for a divisor that is not zero *)
Definition fdiv (a b : pyfloat) : pyfloat :=
  match a, b with
  | NaN, _ | _, NaN => NaN
  | Fin x, Fin y => round64 (x / y)
  | Fin _, _ => Fin 0
  | _, Fin _ => infinity (xorb (is_negative a) (is_negative b))
  | _, _ => NaN
  end.

Definition fadd (a b : pyfloat) : pyfloat :=
  match a, b with
  | NaN, _ | _, NaN => NaN
  | Fin x, Fin y => round64 (x + y)
  | PInf, NInf | NInf, PInf => NaN
  | Fin _, _ => b
  | _, _ => a
  end.

Definition fneg (a : pyfloat) : pyfloat :=
  match a with
  | Fin x => Fin (- x)
  | PInf => NInf
  | NInf => PInf
  | NaN => NaN
  end.

Definition fsub (a b : pyfloat) : pyfloat := fadd a (fneg b).

Definition ffloor (a : pyfloat) : pyfloat :=
  match a with
  | Fin x => Fin (inject_Z (Qfloor x))
  | _ => a
  end.

(** C's [fmod(x, y)] for [y] not zero: the exact remainder of the truncated
    division, with the sign of [x] *)
Definition fmod (a b : pyfloat) : pyfloat :=
  match a, b with
  | NaN, _ | _, NaN => NaN
  | Fin x, Fin y => Fin (x - y * inject_Z (Qtruncate (x / y)))
  | Fin _, _ => a
  | _, _ => NaN
  end.

(** [vx % wx] for [wx] not zero, as [float_rem] computes it: the remainder
    of [fmod], moved to the sign of the divisor. *)
Definition mod_value (vx wx : pyfloat) : pyfloat :=
  let m := fmod vx wx in
  if is_zero m then Fin 0
  else if xorb (is_negative wx) (is_negative m) then fadd m wx else m.

(** [vx // wx] for [wx] not zero, as [float_divmod] computes it: the
    quotient of [vx - mod] by [wx], less one when the remainder changes
    sign, snapped to the nearest integral value. *)
Definition floordiv_value (vx wx : pyfloat) : pyfloat :=
  let m := fmod vx wx in
  let d := fdiv (fsub vx m) wx in
  let d := if is_zero m then d
           else if xorb (is_negative wx) (is_negative m)
                then fsub d (Fin 1) else d in
  if is_zero d then Fin 0
  else
    let f := ffloor d in
    if flt (Fin (1 # 2)) (fsub d f) then fadd f (Fin 1) else f.

Definition nan_msg : string := "cannot convert float NaN to integer".
Definition infinity_msg : string := "cannot convert float infinity to integer".
Definition int_too_large_msg : string := "int too large to convert to float".

(** [int(x)] *)
Definition int_value (x : pyfloat) : Result Z :=
  match x with
  | Fin q => Ok (Qtruncate q)
  | NaN => Raise (ValueError nan_msg)
  | _ => Raise (OverflowError infinity_msg)
  end.

(** The double of an integer operand of a float operation *)
Definition float_of_int (n : Z) : Result pyfloat :=
  match round64 (inject_Z n) with
  | Fin q => Ok (Fin q)
  | _ => Raise (OverflowError int_too_large_msg)
  end.

Definition and_then {A B} (r : Result A) (k : A -> Result B) : Result B :=
  match r with
  | Ok a => k a
  | Raise e => Raise e
  end.

(** [a / b] with [from __future__ import division] *)
Definition truediv (a b : pyfloat) : Result pyfloat :=
  if is_zero b then Raise ZeroDivisionError else Ok (fdiv a b).

(** [a // b] on floats *)
Definition floordiv (a b : pyfloat) : Result pyfloat :=
  if is_zero b then Raise ZeroDivisionError else Ok (floordiv_value a b).

(** [a % b] on floats *)
Definition mod_ (a b : pyfloat) : Result pyfloat :=
  if is_zero b then Raise ZeroDivisionError else Ok (mod_value a b).

(** [a // b] on integers *)
Definition int_floordiv (a b : Z) : Result Z :=
  if Z.eqb b 0 then Raise ZeroDivisionError else Ok (a / b).

(** *** Representations *)

(** Numeric representations that occur as a [dtype]: the builtin [float]
    (a double), [np.float32], [np.int8], and any other type of numpy. *)
Inductive dtype : Type :=
| py_float
| np_float32
| np_int8
| other_type (id : nat).

Definition dtype_is (a b : dtype) : bool :=
  match a, b with
  | py_float, py_float => true
  | np_float32, np_float32 => true
  | np_int8, np_int8 => true
  | other_type i, other_type j => Nat.eqb i j
  | _, _ => false
  end.

(** A two-dimensional array, row by row. *)
Abbreviation ndarray := (list (list Q)).

(** A reference to an array: the array [signal.signal] of the signal under
    observation, or the [n]-th array created since. *)
Inductive loc : Type :=
| signal_data
| local (n : nat).

Definition shape (a : ndarray) : nat * nat :=
  (length a, match a with [] => 0%nat | r :: _ => length r end).

Definition has_shape (a : ndarray) (nrows ncols : nat) : Prop :=
  length a = nrows /\ Forall (fun r => length r = ncols) a.

(** ** telescope.py *)

Module Telescope.

Record Receiver : Type := mkReceiver {
  rcv_fcent : Q;
  rcv_bandwidth : Q;
  rcv_name : string
}.

Record Backend : Type := mkBackend {
  samprate : pyfloat;
  bak_name : string
}.

(** The attributes of a [Telescope] instance.  [systems] is the dict
    [self._systems]; its keys are whatever [add_system] was given as [name]
    ([None] by default), its values the pairs [(receiver, backend)], either of
    which is [None] by default. *)
Record Telescope : Type := mkTelescope {
  name : option string;
  aperture : Q;
  area : Q;
  gain : Q;
  Tsys : option Q;
  systems : gmap (option string) (option Receiver * option Backend)
}.

(** [signal.MetaData] *)
Record MetaData : Type := mkMetaData {
  gauss_draw_max : Q;
  gamma_draw_max : Q;
  data_type : dtype
}.

(** The attributes of the signal that [observe] reads, apart from the data
    array [signal.signal], which is the world's [w_data].  [subintlen] is
    [None] or a number. *)
Record Signal : Type := mkSignal {
  ObsTime : pyfloat;
  Nt : Z;
  Npols : Z;
  Nf : Z;
  SignalType : string;
  subintlen : option pyfloat;
  MetaData_ : MetaData
}.

(** What [print] wrote: the two-line rate message of the resampling
    branches, and the sub-integration message. *)
Inductive Line : Type :=
| msg_rates (sig_freq tel_freq : pyfloat)
| msg_subint (dt : pyfloat).

(** A call of a noise generator with a shape and a time step. *)
Record NoiseCall : Type := mkNoiseCall {
  call_shape : nat * nat;
  call_dt : pyfloat
}.

(** What the two methods can read or change.  [w_rng] is the state of
    numpy's random generator and [w_noise_calls] the calls that reached a
    noise generator; no statement of [add_system] or [observe] writes to
    either. *)
Record World : Type := mkWorld {
  w_self : Telescope;
  w_signal : Signal;
  w_data : ndarray;
  w_arrays : list ndarray;
  w_stdout : list Line;
  w_rng : nat;
  w_noise_calls : list NoiseCall
}.

Class Collaborators : Type := {
  (** [utils.down_sample(ar, fact)]; [None] when it raises *)
  down_sample : list Q -> Z -> option (list Q);
  (** [utils.rebin(ar, newlen)]; [None] when it raises *)
  rebin : list Q -> Z -> option (list Q);
  (** rounding of a double to single precision *)
  round_float32 : Q -> Q;
  (** the cast to [np.int8] of a double whose integral part is not an
      [int8] *)
  int8_out_of_range : Z -> Z;
  (** the cast of a double to a type other than those named in [dtype] *)
  cast_other : nat -> Q -> Q
}.

(** *** The state and exception monad *)

Definition M (A : Type) : Type := World -> Result A * World.

Definition ret {A} (a : A) : M A := fun w => (Ok a, w).

Definition raise {A} (e : exn) : M A := fun w => (Raise e, w).

Definition bind {A B} (c : M A) (k : A -> M B) : M B :=
  fun w =>
    match c w with
    | (Ok a, w') => k a w'
    | (Raise e, w') => (Raise e, w')
    end.

Notation "x <- c ;; k" := (bind c (fun x => k))
  (at level 100, c at next level, right associativity).
Notation "c ;; k" := (bind c (fun _ => k))
  (at level 100, right associativity).

Definition get_self : M Telescope := fun w => (Ok (w_self w), w).
Definition get_signal : M Signal := fun w => (Ok (w_signal w), w).

Definition set_arrays (h : list ndarray) (w : World) : World :=
  mkWorld (w_self w) (w_signal w) (w_data w) h (w_stdout w) (w_rng w)
          (w_noise_calls w).

Definition set_data (a : ndarray) (w : World) : World :=
  mkWorld (w_self w) (w_signal w) a (w_arrays w) (w_stdout w) (w_rng w)
          (w_noise_calls w).

Definition print (l : Line) : M unit :=
  fun w =>
    (Ok tt, mkWorld (w_self w) (w_signal w) (w_data w) (w_arrays w)
                    (w_stdout w ++ [l]) (w_rng w) (w_noise_calls w)).

(** A step that neither reads nor changes the world. *)
Definition lift {A} (r : Result A) : M A := fun w => (r, w).

(** *** numpy *)

(** [np.array(a, dtype=t)] and the cast of one sample.  The cast to
    [np.int8] truncates toward zero; the builtin [float] is the double
    itself. *)
Definition cast_int8 `{Collaborators} (z : Z) : Z :=
  if ((-128 <=? z)%Z && (z <=? 127)%Z)%bool then z else int8_out_of_range z.

Definition astype `{Collaborators} (t : dtype) (x : Q) : Q :=
  match t with
  | py_float => x
  | np_float32 => round_float32 x
  | np_int8 => inject_Z (cast_int8 (Qtruncate x))
  | other_type n => cast_other n x
  end.

Definition deref (l : loc) (w : World) : ndarray :=
  match l with
  | signal_data => w_data w
  | local n => w_arrays w !!! n
  end.

Definition load (l : loc) : M ndarray :=
  fun w => (Ok (deref l w), w).

Definition alloc (a : ndarray) : M loc :=
  fun w => (Ok (local (length (w_arrays w))), set_arrays (w_arrays w ++ [a]) w).

Definition store (l : loc) (a : ndarray) : M unit :=
  fun w =>
    match l with
    | signal_data => (Ok tt, set_data a w)
    | local n => (Ok tt, set_arrays (<[n := a]> (w_arrays w)) w)
    end.

(** [np.array(src, dtype=t)]: always a new array *)
Definition np_array `{Collaborators} (src : loc) (t : dtype) : M loc :=
  a <- load src ;;
  alloc (map (map (astype t)) a).

(** [np.zeros((nrows, ncols))] *)
Definition negative_dimensions (nrows ncols : Z) : bool :=
  ((nrows <? 0)%Z || (ncols <? 0)%Z)%bool.

Definition zeros (nrows ncols : Z) : ndarray :=
  replicate (Z.to_nat nrows) (replicate (Z.to_nat ncols) 0%Q).

Definition np_zeros (nrows ncols : Z) : M loc :=
  if negative_dimensions nrows ncols
  then raise (ValueError "negative dimensions are not allowed")
  else alloc (zeros nrows ncols).

(** Broadcasting of a one-dimensional value onto [n] places. *)
Definition broadcast {A} (v : list A) (n : nat) : option (list A) :=
  if Nat.eqb (length v) n then Some v
  else match v with
       | [x] => Some (replicate n x)
       | _ => None
       end.

Definition index_msg : string := "index is out of bounds for axis 0".
Definition broadcast_msg : string := "could not broadcast input array".

(** [out[ii, :] = v] *)
Definition setitem_row (out : loc) (ii : nat) (v : list Q) : M unit :=
  a <- load out ;;
  match a !! ii with
  | None => raise (IndexError index_msg)
  | Some old =>
      match broadcast v (length old) with
      | None => raise (ValueError broadcast_msg)
      | Some r => store out (<[ii := r]> a)
      end
  end.

(** [out[out > c] = v] and [out[out < c] = v] *)
Definition where_gt (c v x : Q) : Q := if Qlt_bool c x then v else x.
Definition where_lt (c v x : Q) : Q := if Qlt_bool x c then v else x.

Definition setitem_gt (out : loc) (c v : Q) : M unit :=
  a <- load out ;;
  store out (map (map (where_gt c v)) a).

Definition setitem_lt (out : loc) (c v : Q) : M unit :=
  a <- load out ;;
  store out (map (map (where_lt c v)) a).

(** *** [Telescope.add_system] and [Telescope.observe] *)

(** [self._systems[name] = (receiver, backend)] *)
Definition add_system (name_ : option string) (receiver : option Receiver)
    (backend : option Backend) : M unit :=
  fun w =>
    let self := w_self w in
    (Ok tt,
     mkWorld (mkTelescope (name self) (aperture self) (area self) (gain self)
                (Tsys self) (<[name_ := (receiver, backend)]> (systems self)))
             (w_signal w) (w_data w) (w_arrays w) (w_stdout w) (w_rng w)
             (w_noise_calls w)).

Definition sample_rate_msg : string :=
  "Signal sampling freq < Telescope sampling freq".

Definition is_voltage (sig : Signal) : bool :=
  String.eqb (SignalType sig) "voltage".

(** The number of rows that [observe] allocates for a signal. *)
Definition out_rows (sig : Signal) : Z :=
  if is_voltage sig then Npols sig else Nf sig.

Section Observe.
Context `{Collaborators}.

(** [self.systems[system][1]] *)
Definition lookup_backend (self : Telescope) (system : option string)
    : M (option Backend) :=
  match systems self !! system with
  | None => raise (KeyError system)
  | Some (_, bak) => ret bak
  end.

(** [bak.samprate] *)
Definition getattr_samprate (bak : option Backend) : M pyfloat :=
  match bak with
  | None => raise (AttributeError "samprate")
  | Some b => ret (samprate b)
  end.

(** [dt_tel = 1/(2*bak.samprate)] *)
Definition dt_tel_of (rate : pyfloat) : Result pyfloat :=
  truediv (Fin 1) (fmul (Fin 2) rate).

(** [dt_sig = signal.ObsTime / signal.Nt] *)
Definition dt_sig_of (sig : Signal) : Result pyfloat :=
  and_then (float_of_int (Nt sig)) (truediv (ObsTime sig)).

(** [np.zeros((signal.Npols, new_Nt))] for a voltage signal,
    [np.zeros((signal.Nf, new_Nt))] otherwise *)
Definition alloc_out (sig : Signal) (new_Nt : Z) : M loc :=
  if is_voltage sig then np_zeros (Npols sig) new_Nt
  else np_zeros (Nf sig) new_Nt.

(** [for ii, row in enumerate(sig_in): out[ii, :] = f(row, arg)],
    entered at index [ii] with [rows] still to come *)
Fixpoint resample_rows (f : list Q -> Z -> option (list Q)) (callee : string)
    (arg : Z) (out : loc) (ii : nat) (rows : list (list Q)) : M unit :=
  match rows with
  | [] => ret tt
  | row :: rest =>
      match f row arg with
      | None => raise (CollaboratorError callee)
      | Some v =>
          setitem_row out ii v ;;
          resample_rows f callee arg out (S ii) rest
      end
  end.

(** [print(msg.format(1/dt_sig, 1/dt_tel))] *)
Definition print_rates (dt_sig dt_tel : pyfloat) : M unit :=
  f_sig <- lift (truediv (Fin 1) dt_sig) ;;
  f_tel <- lift (truediv (Fin 1) dt_tel) ;;
  print (msg_rates f_sig f_tel).

(** The [if]/[elif]/[else] that chooses how the signal is resampled. *)
Definition resample (sig : Signal) (dt_sig dt_tel : pyfloat) : M loc :=
  let sig_in := signal_data in
  if feq dt_sig dt_tel then
    np_array sig_in py_float
  else
    r <- lift (mod_ dt_tel dt_sig) ;;
    if feq r (Fin 0) then
      SampFactor <- lift (and_then (floordiv dt_tel dt_sig) int_value) ;;
      new_Nt <- lift (int_floordiv (Nt sig) SampFactor) ;;
      out <- alloc_out sig new_Nt ;;
      rows <- load sig_in ;;
      resample_rows down_sample "down_sample" SampFactor out 0 rows ;;
      print_rates dt_sig dt_tel ;;
      ret out
    else if flt dt_sig dt_tel then
      new_Nt <- lift (and_then (floordiv (ObsTime sig) dt_tel) int_value) ;;
      out <- alloc_out sig new_Nt ;;
      rows <- load sig_in ;;
      resample_rows rebin "rebin" new_Nt out 0 rows ;;
      print_rates dt_sig dt_tel ;;
      ret out
    else
      raise (ValueError sample_rate_msg).

(** [if signal.subintlen: dt_tel = signal.subintlen * 1000.0; print(...)];
    [None] and zero are the values that are not true. *)
Definition noise_dt (sig : Signal) (dt_tel : pyfloat) : M pyfloat :=
  match subintlen sig with
  | None => ret dt_tel
  | Some s =>
      if is_zero s then ret dt_tel
      else
        let dt := fmul s (Fin 1000) in
        print (msg_subint dt) ;;
        ret dt
  end.

(** [if noise: out += self.radiometer_noise(signal, out.shape, dt_tel)].
    The class [Telescope] defines [__init__], [__repr__], the properties
    [name], [area], [gain], [aperture], [systems] and [Tsys], [add_system],
    [observe], [apply_response], [rfi] and [init_signal], and its instances
    have no other attribute than those behind the properties: the lookup of
    [self.radiometer_noise] raises before anything is called. *)
Definition add_noise (noise : bool) (self : Telescope) (sig : Signal)
    (out : loc) (dt_tel : pyfloat) : M unit :=
  if noise then raise (AttributeError "radiometer_noise") else ret tt.

(** The clipping of [out] to the limits of the representation. *)
Definition clip_out (sig : Signal) (out : loc) : M unit :=
  if is_voltage sig then
    let clip := gauss_draw_max (MetaData_ sig) in
    setitem_gt out clip clip ;;
    setitem_lt out (- clip)%Q (- clip)%Q
  else
    let clip := gamma_draw_max (MetaData_ sig) in
    setitem_gt out clip clip.

Definition observe (system : option string) (noise : bool) : M loc :=
  self <- get_self ;;
  sig <- get_signal ;;
  bak <- lookup_backend self system ;;
  rate <- getattr_samprate bak ;;
  dt_tel <- lift (dt_tel_of rate) ;;
  dt_sig <- lift (dt_sig_of sig) ;;
  out <- resample sig dt_sig dt_tel ;;
  dt_tel <- noise_dt sig dt_tel ;;
  add_noise noise self sig out dt_tel ;;
  clip_out sig out ;;
  np_array out (data_type (MetaData_ sig)).

End Observe.

(** *** Collaborators as the specification describes them *)

Definition Qsum (l : list Q) : Q := foldr Qplus 0%Q l.

(** Consecutive groups of [k] samples; a trailing shorter group is dropped. *)
Fixpoint chunks (fuel k : nat) (l : list Q) : list (list Q) :=
  match fuel with
  | O => []
  | S fuel' =>
      if ((0 <? k) && (k <=? length l))%nat
      then take k l :: chunks fuel' k (drop k l)
      else []
  end.

(** Modelled from the spec: [utils.down_sample] is not among the sources.
    It groups [factor] consecutive samples, reduces each group to its
    average, and drops the trailing remainder, so that the output has
    [floor(len(row)/factor)] samples. *)
Definition down_sample_spec (row : list Q) (factor : Z) : option (list Q) :=
  if (factor <=? 0)%Z then None
  else
    Some (map (fun g => Qred (Qsum g / inject_Z factor))
              (chunks (length row) (Z.to_nat factor) row)).

Definition Qmin_ (a b : Q) : Q := if Qle_bool a b then a else b.
Definition Qmax_ (a b : Q) : Q := if Qle_bool a b then b else a.

(** The part of old bin [i] (of [n]) that lies in new bin [j] (of [m]), the
    whole duration being the unit of time. *)
Definition overlap (n m i j : nat) : Q :=
  let edge (k len : nat) := (inject_Z (Z.of_nat k) / inject_Z (Z.of_nat len))%Q in
  Qmax_ 0 (Qmin_ (edge (S i) n) (edge (S j) m)
           - Qmax_ (edge i n) (edge j m))%Q.

(** Modelled from the spec: [utils.rebin] is not among the sources.  It maps
    the row onto [new_Nt] bins covering the same duration; every input sample
    contributes to a new bin in proportion to the overlap of its own bin with
    the new one, so that a constant row stays constant. *)
Definition rebin_spec (row : list Q) (new_Nt : Z) : option (list Q) :=
  if ((new_Nt <=? 0)%Z || (length row =? 0)%nat)%bool then None
  else
    let n := length row in
    let m := Z.to_nat new_Nt in
    Some (map (fun j =>
                 Qred (inject_Z new_Nt
                       * Qsum (imap (fun i x => (x * overlap n m i j)%Q) row)))
              (seq 0 m)).

(** The collaborators used in the worked examples: the two resampling
    operators above, and casts for samples that single precision and the
    other types hold exactly; no worked example casts a sample beyond the
    range of [np.int8]. *)
Definition reference : Collaborators := {|
  down_sample := down_sample_spec;
  rebin := rebin_spec;
  round_float32 := fun x => x;
  int8_out_of_range := fun _ => 0%Z;
  cast_other := fun _ x => x
|}.

(** *** The preset telescope and some signals *)

(** [_kB = 1.38064852e+03] *)
Definition _kB : Q := 138064852 # 100000.

(** [GBT()] *)
Definition GBT : Telescope :=
  mkTelescope (Some "GBT") 100 5500 (5500 / (2 * _kB)) (Some 35%Q)
    (<[Some "Lband_GUPPI" :=
         (Some (mkReceiver 1400 800 "Lband"),
          Some (mkBackend (Fin (125 # 10)) "GUPPI"))]>
       (<[Some "820_GUPPI" :=
            (Some (mkReceiver 820 180 "820"),
             Some (mkBackend (Fin (3125 # 1000)) "GUPPI"))]> ∅)).

(** The world before the first call: no array created, nothing printed. *)
Definition world_of (tel : Telescope) (sig : Signal) (data : ndarray) : World :=
  mkWorld tel sig data [] [] 0%nat [].

(** *** [Telescope.__init__] *)

Section Constructor.
(** [np.pi] *)
Variable np_pi : Q.

(** [Telescope.__init__(aperture, area=None, Tsys=None, name=None)]; a
    quantity made by [make_quant] is its magnitude.  Without [area] the dish
    is taken to be circular; the gain is for two polarizations. *)
Definition __init__ (aperture_ : Q) (area_ Tsys_ : option Q)
    (name_ : option string) : Telescope :=
  let area' :=
    match area_ with
    | None => (np_pi * (aperture_ / 2) ^ 2)%Q
    | Some a => a
    end in
  mkTelescope name_ aperture_ area' (area' / (2 * _kB))%Q Tsys_ ∅.

End Constructor.

(** The array an [observe] call returned, or the exception it raised. *)
Definition returned (r : Result loc * World) : Result ndarray :=
  match r with
  | (Ok l, w) => Ok (deref l w)
  | (Raise e, _) => Raise e
  end.

End Telescope.

(** ** signal.py *)

Module BaseSignal.

(** The Python values that the arguments and attributes of a signal take. *)
Inductive pyval : Type :=
| VNone
| VBool (b : bool)
| VNum (q : Q)
| VStr (s : string)
| VType (t : dtype)
| VObj (id : string).

(** [bool(v)]: classes, modules and plain objects are true. *)
Definition truthy (v : pyval) : bool :=
  match v with
  | VNone => false
  | VBool b => b
  | VNum q => negb (Qeq_bool q 0)
  | VStr s => negb (String.eqb s "")
  | VType _ => true
  | VObj _ => true
  end.

(** [a is b] *)
Definition is_ (a b : pyval) : bool :=
  match a, b with
  | VNone, VNone => true
  | VBool x, VBool y => Bool.eqb x y
  | VType s, VType t => dtype_is s t
  | VObj x, VObj y => String.eqb x y
  | _, _ => false
  end.

(** [a or b]: the first operand when it is true, the second otherwise. *)
Definition or_ (a b : pyval) : pyval := if truthy a then a else b.

(** The attributes of an instance.  [None] stands for an attribute that has
    not been set; [_draw_max] and [_draw_norm] start from the values of the
    class, [None] and [1]. *)
Record Instance : Type := mkInstance {
  _fcent : option pyval;
  _bw : option pyval;
  _samprate : option pyval;
  _dtype : option pyval;
  _draw_max : pyval;
  _draw_norm : pyval
}.

Definition new_instance : Instance :=
  mkInstance None None None None VNone (VNum 1).

Definition Method (A : Type) : Type := Instance -> Result A * Instance.

(** The names bound at module level in signal.py, and the builtins that the
    module uses. *)
Definition module_globals : list string :=
  ["absolute_import"; "division"; "print_function"; "unicode_literals";
   "np"; "stats"; "make_quant"; "__all__"; "BaseSignal"; "Signal"].

Definition builtins : list string :=
  ["object"; "property"; "hasattr"; "ValueError"; "NotImplementedError";
   "None"; "True"; "False"; "abs"; "all"; "any"; "bool"; "dict"; "dir";
   "enumerate"; "float"; "format"; "getattr"; "id"; "int"; "isinstance";
   "iter"; "len"; "list"; "map"; "max"; "min"; "next"; "print"; "range";
   "repr"; "setattr"; "str"; "sum"; "tuple"; "type"; "zip"].

(** The value of a name: a local first, then a global, then a builtin. *)
Definition load_name (locals : list (string * pyval)) (x : string)
    : Result pyval :=
  match List.find (fun p => String.eqb x (fst p)) locals with
  | Some p => Ok (snd p)
  | None =>
      if existsb (String.eqb x) (module_globals ++ builtins)
      then Ok (VObj x)
      else Raise (NameError x)
  end.

Definition unsupported_msg : string := "data type {} not supported".

(** The body of [__init__], with the name that the guard reads left open. *)
Definition init_body (guard_name : string)
    (fcent bandwidth sample_rate dtype : pyval) : Method unit :=
  fun self =>
    let locals := [("self", VObj "self"); ("fcent", fcent);
                   ("bandwidth", bandwidth); ("sample_rate", sample_rate);
                   ("dtype", dtype)] in
    let self := mkInstance (Some fcent) (Some bandwidth) (Some sample_rate)
                  (_dtype self) (_draw_max self) (_draw_norm self) in
    match load_name locals guard_name with
    | Raise e => (Raise e, self)
    | Ok v =>
        if truthy (or_ (VBool (is_ v (VType np_float32))) (VType np_int8))
        then (Ok tt,
              mkInstance (_fcent self) (_bw self) (_samprate self)
                (Some dtype) (_draw_max self) (_draw_norm self))
        else (Raise (ValueError unsupported_msg), self)
    end.

(** [BaseSignal.__init__]: the guard is [if dype is np.float32 or np.int8]. *)
Definition __init__ : pyval -> pyval -> pyval -> pyval -> Method unit :=
  init_body "dype".

(** The constructor with the guard reading the argument [dtype]. *)
Definition init_reading_dtype : pyval -> pyval -> pyval -> pyval -> Method unit :=
  init_body "dtype".

(** [np.iinfo(np.int8).max] *)
Definition int8_max : Q := 127.

Section DrawNorm.
(** [scipy.stats.norm.ppf] *)
Variable norm_ppf : Q -> Q.

(** [BaseSignal._set_draw_norm]; [self.dtype] is the property that returns
    [self._dtype]. *)
Definition _set_draw_norm : Method unit :=
  fun self =>
    match _dtype self with
    | None => (Raise (AttributeError "_dtype"), self)
    | Some d =>
        let self1 :=
          if is_ d (VType np_float32)
          then mkInstance (_fcent self) (_bw self) (_samprate self)
                 (_dtype self) (VNum 200) (VNum 1)
          else self in
        let self2 :=
          if is_ d (VType np_int8)
          then
            let gauss_limit := norm_ppf (999 # 1000) in
            mkInstance (_fcent self1) (_bw self1) (_samprate self1)
              (_dtype self1) (VNum int8_max) (VNum (int8_max / gauss_limit))
          else self1 in
        (Ok tt, self2)
    end.

End DrawNorm.

End BaseSignal.

(** * The functional reading of [observe]

    The loop and the stages of [observe] as functions on the array they work
    on.  The lemmas of the next part show that [observe] computes them. *)

Import Telescope.

Section Model.
Context `{Collaborators}.

(** The loop of [resample_rows] on the array it fills: the exception, if
    any, and the array as the loop leaves it. *)
Fixpoint fill_rows (f : list Q -> Z -> option (list Q)) (callee : string)
    (arg : Z) (a : ndarray) (ii : nat) (rows : list (list Q))
    : Result unit * ndarray :=
  match rows with
  | [] => (Ok tt, a)
  | row :: rest =>
      match f row arg with
      | None => (Raise (CollaboratorError callee), a)
      | Some v =>
          match a !! ii with
          | None => (Raise (IndexError index_msg), a)
          | Some old =>
              match broadcast v (length old) with
              | None => (Raise (ValueError broadcast_msg), a)
              | Some r => fill_rows f callee arg (<[ii := r]> a) (S ii) rest
              end
          end
      end
  end.

(** Allocation, loop and message of the two resampling branches. *)
Definition resample_into (f : list Q -> Z -> option (list Q))
    (callee : string) (arg : Z) (sig : Signal) (new_Nt : Z) (data : ndarray)
    (dt_sig dt_tel : pyfloat) : Result ndarray :=
  if negative_dimensions (out_rows sig) new_Nt
  then Raise (ValueError "negative dimensions are not allowed")
  else
    match fill_rows f callee arg (zeros (out_rows sig) new_Nt) 0 data with
    | (Raise e, _) => Raise e
    | (Ok _, a) =>
        if (is_zero dt_sig || is_zero dt_tel)%bool
        then Raise ZeroDivisionError else Ok a
    end.

(** The array that [resample] leaves at the location it returns. *)
Definition resample_array (sig : Signal) (data : ndarray)
    (dt_sig dt_tel : pyfloat) : Result ndarray :=
  if feq dt_sig dt_tel then Ok data
  else
    and_then (mod_ dt_tel dt_sig) (fun r =>
      if feq r (Fin 0) then
        and_then (and_then (floordiv dt_tel dt_sig) int_value)
          (fun SampFactor =>
             and_then (int_floordiv (Nt sig) SampFactor) (fun new_Nt =>
               resample_into down_sample "down_sample" SampFactor sig new_Nt
                 data dt_sig dt_tel))
      else if flt dt_sig dt_tel then
        and_then (and_then (floordiv (ObsTime sig) dt_tel) int_value)
          (fun new_Nt =>
             resample_into rebin "rebin" new_Nt sig new_Nt data dt_sig dt_tel)
      else Raise (ValueError sample_rate_msg)).

(** What the resampling branches print. *)
Definition rate_lines (dt_sig dt_tel : pyfloat) : list Line :=
  if feq dt_sig dt_tel then []
  else [msg_rates (fdiv (Fin 1) dt_sig) (fdiv (Fin 1) dt_tel)].

(** The time step after the override, and the message that goes with an
    override. *)
Definition noise_time (sig : Signal) (dt_tel : pyfloat) : pyfloat :=
  match subintlen sig with
  | None => dt_tel
  | Some s => if is_zero s then dt_tel else fmul s (Fin 1000)
  end.

Definition subint_lines (sig : Signal) : list Line :=
  match subintlen sig with
  | None => []
  | Some s => if is_zero s then [] else [msg_subint (fmul s (Fin 1000))]
  end.

(** Clipping of one sample. *)
Definition clip_sample (sig : Signal) (x : Q) : Q :=
  if is_voltage sig then
    let clip := gauss_draw_max (MetaData_ sig) in
    where_lt (- clip) (- clip) (where_gt clip clip x)
  else
    let clip := gamma_draw_max (MetaData_ sig) in
    where_gt clip clip x.

Definition clipped (sig : Signal) (a : ndarray) : ndarray :=
  map (map (clip_sample sig)) a.

Definition quantized (sig : Signal) (a : ndarray) : ndarray :=
  map (map (astype (data_type (MetaData_ sig)))) (clipped sig a).

(** The backend registered under a name, if any. *)
Definition backend_of (tel : Telescope) (system : option string)
    : option (option Backend) :=
  snd <$> systems tel !! system.

(** [observe] without noise, as a function of the backend, the attributes
    of the signal and its data. *)
Definition observe_model (bak : option (option Backend))
    (system : option string) (sig : Signal) (data : ndarray)
    : Result ndarray :=
  match bak with
  | None => Raise (KeyError system)
  | Some None => Raise (AttributeError "samprate")
  | Some (Some b) =>
      and_then (dt_tel_of (samprate b)) (fun dt_tel =>
        and_then (dt_sig_of sig) (fun dt_sig =>
          and_then (resample_array sig data dt_sig dt_tel) (fun a =>
            Ok (quantized sig a))))
  end.

(** The world after a stage that created the array [a] and printed [ls]. *)
Definition grown (w : World) (a : ndarray) (ls : list Line) : World :=
  mkWorld (w_self w) (w_signal w) (w_data w) (w_arrays w ++ [a])
          (w_stdout w ++ ls) (w_rng w) (w_noise_calls w).

(** The outcome of a stage that leaves its array at a new location: either
    it returns that location, the world having grown by the array, or it
    raises, and only arrays that nothing refers to are left behind. *)
Definition stage_outcome (r : Result loc * World) (w : World)
    (model : Result ndarray) (ls : list Line) : Prop :=
  match model with
  | Ok a => r = (Ok (local (length (w_arrays w))), grown w a ls)
  | Raise e => exists junk, r = (Raise e, set_arrays (w_arrays w ++ junk) w)
  end.

(** In-place update of the array at a location. *)
Definition modify (l : loc) (f : ndarray -> ndarray) (w : World) : World :=
  snd (store l (f (deref l w)) w).

(** The statements of [observe] after the resampling stage. *)
Definition finish (noise : bool) (self : Telescope) (sig : Signal)
    (out : loc) (dt_tel : pyfloat) : M loc :=
  dt_tel <- noise_dt sig dt_tel ;;
  add_noise noise self sig out dt_tel ;;
  clip_out sig out ;;
  np_array out (data_type (MetaData_ sig)).

(** The world after the override: what it printed is the only change. *)
Definition finish_world (sig : Signal) (w : World) : World :=
  mkWorld (w_self w) (w_signal w) (w_data w) (w_arrays w)
          (w_stdout w ++ subint_lines sig) (w_rng w) (w_noise_calls w).

(** The array that the clipping works on: with noise the call has ended
    before. *)
Definition with_noise (noise : bool) (a : ndarray) : Result ndarray :=
  if noise then Raise (AttributeError "radiometer_noise") else Ok a.

(** The outcome of a call that reaches the resampling stage. *)
Definition observe_outcome (noise : bool) (sig : Signal)
    (dt_sig dt_tel : pyfloat) (w : World) (r : Result loc * World) : Prop :=
  match resample_array sig (w_data w) dt_sig dt_tel with
  | Raise e => exists junk, r = (Raise e, set_arrays (w_arrays w ++ junk) w)
  | Ok a =>
      let w0 := finish_world sig (grown w a (rate_lines dt_sig dt_tel)) in
      match with_noise noise a with
      | Raise e => r = (Raise e, w0)
      | Ok a' =>
          r = (Ok (local (S (length (w_arrays w)))),
               set_arrays (w_arrays w ++ [clipped sig a'; quantized sig a'])
                 w0)
      end
  end.


(** [f] turns every row of [data] into [ncols] samples. *)
Definition rows_fit (f : list Q -> Z -> option (list Q)) (arg : Z)
    (ncols : nat) (data : ndarray) : Prop :=
  Forall (fun row => exists v, f row arg = Some v /\ length v = ncols) data.


(** A sample that the clipping leaves alone. *)
Definition within_clip (sig : Signal) (x : Q) : Prop :=
  if is_voltage sig
  then (- gauss_draw_max (MetaData_ sig) <= x)%Q /\
       (x <= gauss_draw_max (MetaData_ sig))%Q
  else (x <= gamma_draw_max (MetaData_ sig))%Q.

End Model.

(** ** Worked observations

    The preset telescope and its L-band system, whose backend samples at
    12.5, so that [dt_tel] is the double of 0.04. *)

(** The rational that the double of a decimal stands for. *)
Definition double (q : Q) : Q :=
  match fl q with
  | Fin x => x
  | _ => 0%Q
  end.

Definition lband : option string := Some "Lband_GUPPI".
Definition guppi_lband : Backend := mkBackend (Fin (125 # 10)) "GUPPI".

Definition int8_metadata : MetaData := mkMetaData 127 127 np_int8.
Definition float32_metadata : MetaData := mkMetaData 200 200 np_float32.

(** Eight samples over 0.08: [dt_sig] is the double of 0.01, a quarter of
    [dt_tel]. *)
Definition w_decimate : World :=
  world_of GBT (mkSignal (fl (8 # 100)) 8 1 3 "voltage" None int8_metadata)
    [[1; 2; 3; 4; 5; 6; 7; 100]%Q].

(** Eight samples over 0.28: [dt_sig] is the double of 0.035, no divisor
    of [dt_tel]. *)
Definition w_rebin : World :=
  world_of GBT (mkSignal (fl (28 # 100)) 8 1 3 "voltage" None int8_metadata)
    [[1; 2; 3; 4; 5; 6; 7; 100]%Q].

(** Four samples over 0.16: [dt_sig = dt_tel]. *)
Definition w_pass : World :=
  world_of GBT (mkSignal (fl (16 # 100)) 4 1 3 "voltage" None int8_metadata)
    [[1; 2; 3; 100]%Q].

(** The same with a sample of [-128], the least [int8], and with single
    precision samples one of which is above the limit of 200. *)
Definition w_pass_int8_min : World :=
  world_of GBT (mkSignal (fl (16 # 100)) 4 1 3 "voltage" None int8_metadata)
    [[1; 2; 3; -128]%Q].

Definition w_pass_float32 : World :=
  world_of GBT
    (mkSignal (fl (16 # 100)) 4 1 3 "voltage" None float32_metadata)
    [[1; 2; 3; 300]%Q].


(** Eight samples over 0.48: [dt_sig] is the double of 0.06, more than
    [dt_tel]. *)
Definition w_slow : World :=
  world_of GBT (mkSignal (fl (48 # 100)) 8 1 3 "voltage" None int8_metadata)
    [[1; 2; 3; 4; 5; 6; 7; 100]%Q].

(** Observations in which the rounding of the doubles decides the branch.
    Thirty samples over one second for a backend that samples at 5: in exact
    arithmetic [dt_tel] is three times [dt_sig], in doubles the remainder is
    [2 ^ -57].  Three samples over 0.12000000000000001: the quotient rounds
    to the double of 0.04.  Twenty-nine samples over 1.16: the quotient
    rounds to the double below that of 0.04. *)
Definition w_thirty : World :=
  snd (add_system (Some "slow") None (Some (mkBackend (Fin 5) "slow"))
         (world_of GBT (mkSignal (Fin 1) 30 1 3 "voltage" None int8_metadata)
            [replicate 30 1%Q])).

Definition w_near_equal : World :=
  world_of GBT
    (mkSignal (fl (12000000000000001 # 100000000000000000)) 3 1 3 "voltage"
       None int8_metadata)
    [[1; 2; 3]%Q].

Definition w_near_miss : World :=
  world_of GBT (mkSignal (fl (116 # 100)) 29 1 3 "voltage" None int8_metadata)
    [replicate 29 1%Q].

(** Intensity signals of three channels with a sub-integration length of
    half a second, and of zero. *)
Definition w_subint : World :=
  world_of GBT
    (mkSignal (fl (8 # 100)) 8 1 3 "intensity" (Some (Fin (1 # 2)))
       int8_metadata)
    [[1; 2; 3; 4; 5; 6; 7; 8]; [0; 0; 0; 0; 1; 1; 1; 1];
     [9; 9; 9; 9; 9; 9; 9; 9]]%Q.

Definition w_subint_zero : World :=
  world_of GBT
    (mkSignal (fl (8 # 100)) 8 1 3 "intensity" (Some (Fin 0)) int8_metadata)
    [[1; 2; 3; 4; 5; 6; 7; 8]; [0; 0; 0; 0; 1; 1; 1; 1];
     [9; 9; 9; 9; 9; 9; 9; 9]]%Q.

(** A [np.float32] signal object before [_set_draw_norm], and a value for
    the 0.999 quantile of the normal distribution. *)
Definition float32_instance : BaseSignal.Instance :=
  BaseSignal.mkInstance (Some (BaseSignal.VNum 1400))
    (Some (BaseSignal.VNum 800)) (Some BaseSignal.VNone)
    (Some (BaseSignal.VType np_float32)) BaseSignal.VNone (BaseSignal.VNum 1).

Definition ppf_table (p : Q) : Q := 30902323 # 10000000.

(** ** Notions for the further properties *)

(** The gain is the area over twice the Boltzmann constant. *)
Definition gain_matches (tel : Telescope) : Prop :=
  (gain tel == area tel / (2 * _kB))%Q.

Definition is_integer (x : Q) : Prop := exists z : Z, x = inject_Z z.

(** Two calls of [add_system] in a row. *)
Definition add_two (n1 : option string) (r1 : option Receiver)
    (b1 : option Backend) (n2 : option string) (r2 : option Receiver)
    (b2 : option Backend) : M unit :=
  add_system n1 r1 b1 ;; add_system n2 r2 b2.

(** Worlds for the further properties: a voltage signal kept in doubles
    with a sample above the limit; the telescope with a system registered by
    name only; a signal declared as a one-row voltage whose data have three
    rows; a three-channel intensity signal whose data have one row. *)
Definition w_pass_float64 : World :=
  world_of GBT
    (mkSignal (fl (16 # 100)) 4 1 3 "voltage" None
       (mkMetaData 200 200 py_float))
    [[1; 2; 3; 300]%Q].

Definition w_bare_system : World :=
  snd (add_system (Some "bare") None None w_pass).

Definition w_many_rows : World :=
  world_of GBT (mkSignal (fl (8 # 100)) 8 1 3 "voltage" None int8_metadata)
    [[1; 2; 3; 4; 5; 6; 7; 8]; [0; 0; 0; 0; 1; 1; 1; 1];
     [9; 9; 9; 9; 9; 9; 9; 9]]%Q.

Definition w_few_rows : World :=
  world_of GBT (mkSignal (fl (8 # 100)) 8 1 3 "intensity" None int8_metadata)
    [[1; 2; 3; 4; 5; 6; 7; 8]%Q].

(** A signal object whose [dtype] is the builtin [float]. *)
Definition float64_instance : BaseSignal.Instance :=
  BaseSignal.mkInstance (Some (BaseSignal.VNum 1400))
    (Some (BaseSignal.VNum 800)) (Some BaseSignal.VNone)
    (Some (BaseSignal.VType py_float)) BaseSignal.VNone (BaseSignal.VNum 1).

(** The row lengths of an array: its shape, row by row. *)
Definition row_lengths (a : ndarray) : list nat := map length a.

(** * Properties *)

Section Properties.
Context `{Collaborators}.

(** [List.map] is stdpp's [fmap] on lists. *)
Lemma map_fmap {A B} (f : A -> B) (l : list A) : map f l = f <$> l.
Proof. reflexivity. Qed.

Lemma set_arrays_same (w : World) : set_arrays (w_arrays w) w = w.
Proof. by destruct w. Qed.

Lemma deref_local_lookup (n : nat) (w : World) (a : ndarray) :
  w_arrays w !! n = Some a -> deref (local n) w = a.
Proof. intros Hn. simpl. by apply list_lookup_total_correct. Qed.


Lemma broadcast_exact {A} (v : list A) : broadcast v (length v) = Some v.
Proof. unfold broadcast. by rewrite Nat.eqb_refl. Qed.

(** *** The loop *)

Lemma setitem_row_local (n ii : nat) (v : list Q) (w : World) (a : ndarray) :
  w_arrays w !! n = Some a ->
  setitem_row (local n) ii v w =
    match a !! ii with
    | None => (Raise (IndexError index_msg), w)
    | Some old =>
        match broadcast v (length old) with
        | None => (Raise (ValueError broadcast_msg), w)
        | Some r => (Ok tt, set_arrays (<[n := <[ii := r]> a]> (w_arrays w)) w)
        end
    end.
Proof.
  intros Hn. unfold setitem_row, bind, load.
  rewrite (deref_local_lookup _ _ _ Hn).
  destruct (a !! ii) as [old|]; [|done].
  by destruct (broadcast v (length old)).
Qed.

Lemma resample_rows_local f callee arg (n : nat) (rows : list (list Q)) :
  forall (ii : nat) (w : World) (a : ndarray),
    w_arrays w !! n = Some a ->
    resample_rows f callee arg (local n) ii rows w =
      (fst (fill_rows f callee arg a ii rows),
       set_arrays (<[n := snd (fill_rows f callee arg a ii rows)]> (w_arrays w)) w).
Proof.
  induction rows as [|row rest IH]; intros ii w a Hn; simpl.
  - rewrite list_insert_id by done. by rewrite set_arrays_same.
  - destruct (f row arg) as [v|]; simpl.
    2:{ rewrite list_insert_id by done. by rewrite set_arrays_same. }
    unfold bind. rewrite (setitem_row_local _ _ _ _ _ Hn).
    destruct (a !! ii) as [old|]; simpl.
    2:{ rewrite list_insert_id by done. by rewrite set_arrays_same. }
    destruct (broadcast v (length old)) as [r|]; simpl.
    2:{ rewrite list_insert_id by done. by rewrite set_arrays_same. }
    assert (Hlt : (n < length (w_arrays w))%nat) by (by eapply lookup_lt_Some).
    rewrite (IH (S ii) _ (<[ii := r]> a)).
    + simpl. by rewrite list_insert_insert_eq.
    + simpl. by apply list_lookup_insert_eq.
Qed.





Lemma fill_rows_raises f callee arg (rows : list (list Q)) :
  forall (ii : nat) (a : ndarray) (e : exn),
    fst (fill_rows f callee arg a ii rows) = Raise e ->
    e = CollaboratorError callee \/ e = IndexError index_msg \/
    e = ValueError broadcast_msg.
Proof.
  induction rows as [|row rest IH]; intros ii a e; simpl; [done|].
  destruct (f row arg) as [v|]; [|intros [= <-]; auto].
  destruct (a !! ii) as [old|]; [|intros [= <-]; auto].
  destruct (broadcast v (length old)) as [r|]; [|intros [= <-]; auto].
  apply IH.
Qed.

(** *** The resampling stage *)

Lemma alloc_out_zeros (sig : Signal) (new_Nt : Z) :
  alloc_out sig new_Nt = np_zeros (out_rows sig) new_Nt.
Proof. unfold alloc_out, out_rows. by destruct (is_voltage sig). Qed.

(** A stage that raises before it has created anything. *)
Lemma raises_at_once (e : exn) (w : World) :
  exists junk : list ndarray,
    (Raise e, w) = (@Raise loc e, set_arrays (w_arrays w ++ junk) w).
Proof. exists []. by rewrite app_nil_r, set_arrays_same. Qed.

Lemma resample_tail_run f callee arg (sig : Signal) (new_Nt : Z)
    (dt_sig dt_tel : pyfloat) (w : World) :
  stage_outcome
    ((out <- alloc_out sig new_Nt ;;
      rows <- load signal_data ;;
      resample_rows f callee arg out 0 rows ;;
      print_rates dt_sig dt_tel ;;
      ret out) w)
    w
    (resample_into f callee arg sig new_Nt (w_data w) dt_sig dt_tel)
    [msg_rates (fdiv (Fin 1) dt_sig) (fdiv (Fin 1) dt_tel)].
Proof.
  unfold stage_outcome, resample_into.
  rewrite alloc_out_zeros. cbv [np_zeros bind].
  destruct (negative_dimensions (out_rows sig) new_Nt).
  { apply raises_at_once. }
  cbv [alloc load]. simpl.
  rewrite (resample_rows_local _ _ _ _ _ _ _ (zeros (out_rows sig) new_Nt))
    by (simpl; apply list_lookup_middle; done).
  simpl.
  rewrite insert_app_r_alt by done. rewrite Nat.sub_diag. simpl.
  destruct (fill_rows f callee arg (zeros (out_rows sig) new_Nt) 0 (w_data w))
    as [[[]|e] a]; simpl.
  2:{ by exists [a]. }
  cbv [print_rates truediv bind lift].
  destruct (is_zero dt_sig); simpl; [by exists [a]|].
  destruct (is_zero dt_tel); simpl; [by exists [a]|].
  reflexivity.
Qed.

Lemma map_map_id {A} (f : A -> A) (a : list (list A)) :
  (forall x, f x = x) -> map (map f) a = a.
Proof.
  intros Hf. rewrite <- (map_id a) at 2. apply map_ext. intros r.
  rewrite <- (map_id r) at 2. by apply map_ext.
Qed.

Lemma resample_run (sig : Signal) (dt_sig dt_tel : pyfloat) (w : World) :
  stage_outcome (resample sig dt_sig dt_tel w) w
    (resample_array sig (w_data w) dt_sig dt_tel)
    (rate_lines dt_sig dt_tel).
Proof.
  unfold resample, resample_array, rate_lines.
  destruct (feq dt_sig dt_tel) eqn:Heq.
  { unfold stage_outcome, np_array, bind, load, alloc, grown. simpl.
    rewrite map_map_id by done. by rewrite app_nil_r. }
  unfold bind at 1, lift at 1.
  destruct (mod_ dt_tel dt_sig) as [r|e]; simpl; [|apply raises_at_once].
  destruct (feq r (Fin 0)).
  - unfold bind at 1, lift at 1.
    destruct (and_then (floordiv dt_tel dt_sig) int_value) as [SampFactor|e];
      simpl; [|apply raises_at_once].
    unfold bind at 1, lift at 1.
    destruct (int_floordiv (Nt sig) SampFactor) as [new_Nt|e];
      simpl; [|apply raises_at_once].
    apply resample_tail_run.
  - destruct (flt dt_sig dt_tel); [|apply raises_at_once].
    unfold bind at 1, lift at 1.
    destruct (and_then (floordiv (ObsTime sig) dt_tel) int_value)
      as [new_Nt|e]; simpl; [|apply raises_at_once].
    apply resample_tail_run.
Qed.

(** *** Comparisons *)

Lemma Qlt_bool_iff (a b : Q) : Qlt_bool a b = true <-> (a < b)%Q.
Proof.
  unfold Qlt_bool. rewrite negb_true_iff, <- not_true_iff_false, Qle_bool_iff.
  split; [apply Qnot_le_lt|apply Qlt_not_le].
Qed.

Lemma Qlt_bool_false (a b : Q) : Qlt_bool a b = false <-> (b <= a)%Q.
Proof.
  unfold Qlt_bool. by rewrite negb_false_iff, Qle_bool_iff.
Qed.

Lemma Qeq_bool_false (a b : Q) : Qeq_bool a b = false <-> ~ (a == b)%Q.
Proof.
  rewrite <- not_true_iff_false. by rewrite Qeq_bool_iff.
Qed.

(** *** In-place updates *)

Lemma deref_modify (l : loc) (f : ndarray -> ndarray) (w : World) :
  f [] = [] -> deref l (modify l f w) = f (deref l w).
Proof.
  intros Hf. destruct l as [|n]; [done|]. unfold modify. simpl.
  destruct (decide (n < length (w_arrays w))%nat) as [Hn|Hn].
  - apply list_lookup_total_correct. by apply list_lookup_insert_eq.
  - rewrite list_insert_ge by lia.
    rewrite (list_lookup_total_alt (w_arrays w)), lookup_ge_None_2 by lia. done.
Qed.

Lemma modify_local_last (h : list ndarray) (a : ndarray)
    (f : ndarray -> ndarray) (w : World) :
  w_arrays w = h ++ [a] ->
  modify (local (length h)) f w = set_arrays (h ++ [f a]) w.
Proof.
  intros Hw. unfold modify. simpl. rewrite Hw.
  rewrite (list_lookup_total_correct _ _ a) by (by apply list_lookup_middle).
  rewrite insert_app_r_alt by done. by rewrite Nat.sub_diag.
Qed.

Lemma setitem_gt_modify (l : loc) (c v : Q) (w : World) :
  setitem_gt l c v w = (Ok tt, modify l (map (map (where_gt c v))) w).
Proof. by destruct l. Qed.

Lemma setitem_lt_modify (l : loc) (c v : Q) (w : World) :
  setitem_lt l c v w = (Ok tt, modify l (map (map (where_lt c v))) w).
Proof. by destruct l. Qed.

Lemma modify_modify (l : loc) (f g : ndarray -> ndarray) (w : World) :
  f [] = [] ->
  modify l g (modify l f w) = modify l (fun a => g (f a)) w.
Proof.
  intros Hf. unfold modify at 1 3. rewrite (deref_modify l f w Hf).
  destruct l as [|n]; simpl; [done|].
  unfold set_arrays. simpl. by rewrite list_insert_insert_eq.
Qed.

Lemma modify_ext (l : loc) (f g : ndarray -> ndarray) (w : World) :
  (forall a, f a = g a) -> modify l f w = modify l g w.
Proof. intros Hfg. unfold modify. by rewrite Hfg. Qed.

Lemma clip_out_modify (sig : Signal) (l : loc) (w : World) :
  clip_out sig l w = (Ok tt, modify l (clipped sig) w).
Proof.
  unfold clip_out, clipped, clip_sample.
  destruct (is_voltage sig).
  - unfold bind. rewrite setitem_gt_modify, setitem_lt_modify.
    rewrite modify_modify by done. f_equal. apply modify_ext. intros a.
    rewrite map_map. apply map_ext. intros r. by rewrite map_map.
  - by rewrite setitem_gt_modify.
Qed.

(** *** Shapes *)

Lemma row_lengths_map (f : Q -> Q) (a : ndarray) :
  row_lengths (map (map f) a) = row_lengths a.
Proof.
  unfold row_lengths. rewrite map_map. apply map_ext. intros r.
  apply length_map.
Qed.

Lemma row_lengths_quantized (sig : Signal) (a : ndarray) :
  row_lengths (quantized sig a) = row_lengths a.
Proof. unfold quantized, clipped. by rewrite !row_lengths_map. Qed.



(** *** The stages after resampling *)

Lemma noise_dt_run (sig : Signal) (dt_tel : pyfloat) (w : World) :
  noise_dt sig dt_tel w = (Ok (noise_time sig dt_tel), finish_world sig w).
Proof.
  unfold noise_dt, noise_time, subint_lines, finish_world, subint_lines.
  destruct (subintlen sig) as [s|]; [destruct (is_zero s)|];
    cbv [bind print ret]; simpl; rewrite ?app_nil_r; by destruct w.
Qed.

Lemma finish_run (noise : bool) (sig : Signal) (dt_tel : pyfloat)
    (h : list ndarray) (a : ndarray) (w : World) :
  w_arrays w = h ++ [a] ->
  finish noise (w_self w) sig (local (length h)) dt_tel w =
    match with_noise noise a with
    | Raise e => (Raise e, finish_world sig w)
    | Ok a' =>
        (Ok (local (S (length h))),
         set_arrays (h ++ [clipped sig a'; quantized sig a'])
                    (finish_world sig w))
    end.
Proof.
  intros Hw. unfold finish. unfold bind at 1. rewrite noise_dt_run.
  unfold with_noise, add_noise. destruct noise; [done|].
  cbv [bind ret]. rewrite clip_out_modify.
  erewrite modify_local_last by (simpl; exact Hw).
  cbv [np_array bind load alloc]. simpl.
  rewrite (list_lookup_total_correct _ _ (clipped sig a))
    by (by apply list_lookup_middle).
  rewrite length_app. simpl. rewrite Nat.add_1_r.
  unfold set_arrays. simpl. by rewrite <- app_assoc.
Qed.

(** *** The whole call *)

Lemma observe_prefix (system : option string) (noise : bool) (w : World) :
  observe system noise w =
    match backend_of (w_self w) system with
    | None => (Raise (KeyError system), w)
    | Some None => (Raise (AttributeError "samprate"), w)
    | Some (Some b) =>
        match dt_tel_of (samprate b), dt_sig_of (w_signal w) with
        | Raise e, _ => (Raise e, w)
        | Ok _, Raise e => (Raise e, w)
        | Ok dt_tel, Ok dt_sig =>
            (out <- resample (w_signal w) dt_sig dt_tel ;;
             finish noise (w_self w) (w_signal w) out dt_tel) w
        end
    end.
Proof.
  unfold observe, backend_of, lookup_backend.
  cbv [bind get_self get_signal].
  destruct (systems (w_self w) !! system) as [[rcv [b|]]|]; simpl; [|done..].
  unfold lift.
  destruct (dt_tel_of (samprate b)) as [dt_tel|e]; [|done].
  by destruct (dt_sig_of (w_signal w)) as [dt_sig|e].
Qed.

Lemma observe_run (system : option string) (noise : bool) (w : World)
    (b : Backend) (dt_sig dt_tel : pyfloat) :
  backend_of (w_self w) system = Some (Some b) ->
  dt_tel_of (samprate b) = Ok dt_tel ->
  dt_sig_of (w_signal w) = Ok dt_sig ->
  observe_outcome noise (w_signal w) dt_sig dt_tel w (observe system noise w).
Proof.
  intros Hb Htel Hsig. rewrite observe_prefix, Hb, Htel, Hsig.
  unfold observe_outcome. unfold bind.
  pose proof (resample_run (w_signal w) dt_sig dt_tel w) as Hres.
  unfold stage_outcome in Hres.
  destruct (resample_array _ _ _ _) as [a|e].
  - rewrite Hres.
    pose proof (finish_run noise (w_signal w) dt_tel (w_arrays w) a
                  (grown w a (rate_lines dt_sig dt_tel)) eq_refl) as Hfin.
    simpl (w_self (grown _ _ _)) in Hfin. rewrite Hfin.
    by destruct (with_noise _ _).
  - destruct Hres as [junk ->]. by exists junk.
Qed.

Lemma returned_raise (r : Result loc * World) (e : exn) :
  returned r = Raise e <-> fst r = Raise e.
Proof. destruct r as [[l|e'] w]; simpl; split; congruence. Qed.

Lemma observe_returned (system : option string) (noise : bool) (w : World)
    (b : Backend) (dt_sig dt_tel : pyfloat) :
  backend_of (w_self w) system = Some (Some b) ->
  dt_tel_of (samprate b) = Ok dt_tel ->
  dt_sig_of (w_signal w) = Ok dt_sig ->
  returned (observe system noise w) =
    and_then (resample_array (w_signal w) (w_data w) dt_sig dt_tel) (fun a =>
      and_then (with_noise noise a) (fun a' =>
        Ok (quantized (w_signal w) a'))).
Proof.
  intros Hb Htel Hsig.
  pose proof (observe_run system noise w b dt_sig dt_tel Hb Htel Hsig) as Hrun.
  unfold observe_outcome in Hrun.
  destruct (resample_array _ _ _ _) as [a|e]; simpl.
  - simpl in Hrun. destruct (with_noise _ _) as [a'|e];
      rewrite Hrun; [|done]. simpl.
    apply (f_equal Ok), list_lookup_total_correct.
    rewrite (lookup_app_r (w_arrays w)) by lia.
    by replace (S (length (w_arrays w)) - length (w_arrays w))%nat
      with 1%nat by lia.
  - by destruct Hrun as [junk ->].
Qed.

Lemma resample_ok_inv (sig : Signal) (dt_sig dt_tel : pyfloat) (w w0 : World)
    (out : loc) :
  resample sig dt_sig dt_tel w = (Ok out, w0) ->
  exists a,
    resample_array sig (w_data w) dt_sig dt_tel = Ok a /\
    out = local (length (w_arrays w)) /\
    w0 = grown w a (rate_lines dt_sig dt_tel) /\
    deref out w0 = a.
Proof.
  intros Hres. pose proof (resample_run sig dt_sig dt_tel w) as Hrun.
  unfold stage_outcome in Hrun.
  destruct (resample_array _ _ _ _) as [a|e].
  - rewrite Hres in Hrun. injection Hrun as -> ->. exists a.
    repeat split. simpl. apply list_lookup_total_correct.
    by apply list_lookup_middle.
  - destruct Hrun as [junk Hrun]. congruence.
Qed.

(** What a call prints once the resampling stage has returned. *)
Lemma observe_stdout (system : option string) (noise : bool) (w w0 : World)
    (b : Backend) (dt_sig dt_tel : pyfloat) (out : loc) :
  backend_of (w_self w) system = Some (Some b) ->
  dt_tel_of (samprate b) = Ok dt_tel ->
  dt_sig_of (w_signal w) = Ok dt_sig ->
  resample (w_signal w) dt_sig dt_tel w = (Ok out, w0) ->
  w_stdout (snd (observe system noise w))
    = w_stdout w0 ++ subint_lines (w_signal w).
Proof.
  intros Hb Htel Hsig Hres.
  destruct (resample_ok_inv _ _ _ _ _ _ Hres) as (a & Ha & -> & -> & Hd).
  pose proof (observe_run system noise w b dt_sig dt_tel Hb Htel Hsig) as Hrun.
  unfold observe_outcome in Hrun. rewrite Ha in Hrun. simpl in Hrun.
  by destruct (with_noise _ _); rewrite Hrun.
Qed.

(** *** Shapes of the resampled array *)


Lemma has_shape_zeros (nrows ncols : Z) :
  has_shape (zeros nrows ncols) (Z.to_nat nrows) (Z.to_nat ncols).
Proof.
  unfold has_shape, zeros. rewrite length_replicate. split; [done|].
  apply Forall_replicate, length_replicate.
Qed.


(** *** The branches of the resampling stage *)

Lemma mod_nonzero (a b : pyfloat) :
  is_zero b = false -> mod_ a b = Ok (mod_value a b).
Proof. intros Hb. unfold mod_. by rewrite Hb. Qed.

Lemma floordiv_nonzero (a b : pyfloat) :
  is_zero b = false -> floordiv a b = Ok (floordiv_value a b).
Proof. intros Hb. unfold floordiv. by rewrite Hb. Qed.

Lemma resample_array_passthrough (sig : Signal) (data : ndarray)
    (dt_sig dt_tel : pyfloat) :
  feq dt_sig dt_tel = true ->
  resample_array sig data dt_sig dt_tel = Ok data.
Proof. intros Heq. unfold resample_array. by rewrite Heq. Qed.

Lemma resample_array_decimate (sig : Signal) (data : ndarray)
    (dt_sig dt_tel : pyfloat) (SampFactor : Z) :
  is_zero dt_sig = false ->
  feq dt_sig dt_tel = false ->
  feq (mod_value dt_tel dt_sig) (Fin 0) = true ->
  int_value (floordiv_value dt_tel dt_sig) = Ok SampFactor ->
  SampFactor <> 0%Z ->
  resample_array sig data dt_sig dt_tel
    = resample_into down_sample "down_sample" SampFactor sig
        (Nt sig / SampFactor) data dt_sig dt_tel.
Proof.
  intros Hsig Hne Hmod Hfactor Hnz. unfold resample_array.
  rewrite Hne, mod_nonzero by done. cbn [and_then]. rewrite Hmod.
  rewrite floordiv_nonzero by done. cbn [and_then]. rewrite Hfactor.
  cbn [and_then]. unfold int_floordiv.
  by rewrite (proj2 (Z.eqb_neq _ _) Hnz).
Qed.

Lemma resample_array_rebin (sig : Signal) (data : ndarray)
    (dt_sig dt_tel : pyfloat) (new_Nt : Z) :
  is_zero dt_sig = false ->
  is_zero dt_tel = false ->
  feq dt_sig dt_tel = false ->
  feq (mod_value dt_tel dt_sig) (Fin 0) = false ->
  flt dt_sig dt_tel = true ->
  int_value (floordiv_value (ObsTime sig) dt_tel) = Ok new_Nt ->
  resample_array sig data dt_sig dt_tel
    = resample_into rebin "rebin" new_Nt sig new_Nt data dt_sig dt_tel.
Proof.
  intros Hsig Htel Hne Hmod Hlt Hcount. unfold resample_array.
  rewrite Hne, mod_nonzero by done. cbn [and_then]. rewrite Hmod, Hlt.
  rewrite floordiv_nonzero by done. cbn [and_then]. by rewrite Hcount.
Qed.


(** *** The rejected case *)

(** A positive number below one has the integral part zero. *)
Lemma Qtruncate_small (x : Q) : (0 <= x)%Q -> (x < 1)%Q -> Qtruncate x = 0%Z.
Proof.
  destruct x as [n d]. unfold Qle, Qlt, Qtruncate. simpl. intros Hlo Hhi.
  apply Z.quot_small. lia.
Qed.

(** The remainder of a positive double by a greater one is the double. *)
Lemma mod_value_small (t s : Q) :
  (0 < t)%Q -> (t < s)%Q ->
  exists m, mod_value (Fin t) (Fin s) = Fin m /\ (m == t)%Q.
Proof.
  intros Ht Hts. unfold mod_value, fmod.
  rewrite Qtruncate_small;
    [|apply Qle_shift_div_l; lra|apply Qlt_shift_div_r; lra].
  set (m := (t - s * inject_Z 0)%Q).
  assert (Hm : (m == t)%Q) by (unfold m; change (inject_Z 0) with 0%Q; lra).
  assert (Hnz : Qeq_bool m 0 = false) by (apply Qeq_bool_false; lra).
  assert (Hs : Qlt_bool s 0 = false) by (apply Qlt_bool_false; lra).
  assert (Hneg : Qlt_bool m 0 = false) by (apply Qlt_bool_false; lra).
  simpl. rewrite Hnz, Hs, Hneg. simpl. by exists m.
Qed.

Lemma resample_array_rejects (sig : Signal) (data : ndarray) (t s : Q) :
  (0 < t)%Q -> (t < s)%Q ->
  resample_array sig data (Fin s) (Fin t) = Raise (ValueError sample_rate_msg).
Proof.
  intros Hpos Hlt. unfold resample_array.
  assert (Heq : feq (Fin s) (Fin t) = false).
  { simpl. apply Qeq_bool_false. lra. }
  assert (Hsig : is_zero (Fin s) = false).
  { simpl. apply Qeq_bool_false. lra. }
  destruct (mod_value_small t s Hpos Hlt) as (m & Hmod & Hm).
  assert (Hgt : flt (Fin s) (Fin t) = false).
  { simpl. apply Qlt_bool_false. lra. }
  assert (Hnz : feq (Fin m) (Fin 0) = false).
  { simpl. apply Qeq_bool_false. lra. }
  rewrite Heq, mod_nonzero by done. cbn [and_then]. by rewrite Hmod, Hnz, Hgt.
Qed.

Lemma resample_rejects (sig : Signal) (t s : Q) (w : World) :
  (0 < t)%Q -> (t < s)%Q ->
  resample sig (Fin s) (Fin t) w = (Raise (ValueError sample_rate_msg), w).
Proof.
  intros Hpos Hlt. unfold resample.
  assert (Heq : feq (Fin s) (Fin t) = false).
  { simpl. apply Qeq_bool_false. lra. }
  assert (Hsig : is_zero (Fin s) = false).
  { simpl. apply Qeq_bool_false. lra. }
  destruct (mod_value_small t s Hpos Hlt) as (m & Hmod & Hm).
  assert (Hgt : flt (Fin s) (Fin t) = false).
  { simpl. apply Qlt_bool_false. lra. }
  assert (Hnz : feq (Fin m) (Fin 0) = false).
  { simpl. apply Qeq_bool_false. lra. }
  rewrite Heq, mod_nonzero by done. cbv [bind lift]. by rewrite Hmod, Hnz, Hgt.
Qed.

Lemma int_value_not_rate_error (x : pyfloat) :
  int_value x <> Raise (ValueError sample_rate_msg).
Proof. by destruct x. Qed.

Lemma resample_into_not_rate_error f callee arg (sig : Signal) (new_Nt : Z)
    (data : ndarray) (dt_sig dt_tel : pyfloat) :
  resample_into f callee arg sig new_Nt data dt_sig dt_tel
    <> Raise (ValueError sample_rate_msg).
Proof.
  unfold resample_into. destruct (negative_dimensions _ _); [done|].
  destruct (fill_rows _ _ _ _ _ _) as [[[]|e] a] eqn:Hfill.
  - by destruct (is_zero dt_sig || is_zero dt_tel)%bool.
  - intros [= ->].
    destruct (fill_rows_raises f callee arg data 0%nat
                (zeros (out_rows sig) new_Nt) (ValueError sample_rate_msg))
      as [?|[?|?]]; [by rewrite Hfill|done..].
Qed.

Lemma resample_array_rate_error (sig : Signal) (data : ndarray)
    (dt_sig dt_tel : pyfloat) :
  resample_array sig data dt_sig dt_tel = Raise (ValueError sample_rate_msg) ->
  feq dt_sig dt_tel = false /\ flt dt_sig dt_tel = false.
Proof.
  unfold resample_array.
  destruct (feq dt_sig dt_tel) eqn:Heq; [done|].
  unfold mod_. destruct (is_zero dt_sig); [done|]. simpl.
  destruct (feq (mod_value dt_tel dt_sig) (Fin 0)).
  { unfold floordiv. destruct (is_zero dt_sig); [done|]. simpl.
    destruct (int_value _) as [SampFactor|e] eqn:Hint.
    2:{ simpl. intros [= ->]. by apply int_value_not_rate_error in Hint. }
    simpl. unfold int_floordiv. destruct (SampFactor =? 0)%Z; [done|]. simpl.
    intros Hinto. by apply resample_into_not_rate_error in Hinto. }
  destruct (flt dt_sig dt_tel) eqn:Hlt; [|done].
  unfold floordiv. destruct (is_zero dt_tel); [done|]. simpl.
  destruct (int_value _) as [new_Nt|e] eqn:Hint.
  2:{ simpl. intros [= ->]. by apply int_value_not_rate_error in Hint. }
  simpl. intros Hinto. by apply resample_into_not_rate_error in Hinto.
Qed.

(** *** Samples that pass unchanged *)

Lemma clip_sample_within (sig : Signal) (x : Q) :
  within_clip sig x -> clip_sample sig x = x.
Proof.
  unfold within_clip, clip_sample, where_gt, where_lt.
  destruct (is_voltage sig).
  - intros [Hlo Hhi].
    rewrite (proj2 (Qlt_bool_false _ _) Hhi).
    by rewrite (proj2 (Qlt_bool_false _ _) Hlo).
  - intros Hhi. by rewrite (proj2 (Qlt_bool_false _ _) Hhi).
Qed.

Lemma map_map_fixed (f : Q -> Q) (a : ndarray) :
  Forall (Forall (fun x => f x = x)) a -> map (map f) a = a.
Proof.
  induction 1 as [|r a Hr _ IH]; simpl; [done|]. f_equal; [|done].
  induction Hr as [|x r Hx _ IHr]; simpl; [done|]. by f_equal.
Qed.

Lemma observe_quiet_returned (system : option string) (w : World) :
  returned (observe system false w) =
    observe_model (backend_of (w_self w) system) system (w_signal w) (w_data w).
Proof.
  unfold observe_model.
  destruct (backend_of (w_self w) system) as [[b|]|] eqn:Hb;
    [|by rewrite observe_prefix, Hb..].
  destruct (dt_tel_of (samprate b)) as [dt_tel|e] eqn:Htel;
    [|by rewrite observe_prefix, Hb, Htel]. simpl.
  destruct (dt_sig_of (w_signal w)) as [dt_sig|e] eqn:Hsig;
    [|by rewrite observe_prefix, Hb, Htel, Hsig]. simpl.
  rewrite (observe_returned system false w b dt_sig dt_tel Hb Htel Hsig).
  by destruct (resample_array _ _ _ _).
Qed.

(** What a call leaves of the world it started from. *)
Lemma observe_frame (system : option string) (noise : bool) (w : World) :
  let w' := snd (observe system noise w) in
  w_self w' = w_self w /\ w_signal w' = w_signal w /\
  w_data w' = w_data w /\
  (exists created, w_arrays w' = w_arrays w ++ created) /\
  w_rng w' = w_rng w /\ w_noise_calls w' = w_noise_calls w.
Proof.
  assert (Hsame : let w' := w in
            w_self w' = w_self w /\ w_signal w' = w_signal w /\
            w_data w' = w_data w /\
            (exists created, w_arrays w' = w_arrays w ++ created) /\
            w_rng w' = w_rng w /\ w_noise_calls w' = w_noise_calls w).
  { simpl. repeat split; try done. exists []. by rewrite app_nil_r. }
  destruct (backend_of (w_self w) system) as [[b|]|] eqn:Hb;
    [|by rewrite observe_prefix, Hb..].
  destruct (dt_tel_of (samprate b)) as [dt_tel|e] eqn:Htel;
    [|by rewrite observe_prefix, Hb, Htel].
  destruct (dt_sig_of (w_signal w)) as [dt_sig|e] eqn:Hsig;
    [|by rewrite observe_prefix, Hb, Htel, Hsig].
  pose proof (observe_run system noise w b dt_sig dt_tel Hb Htel Hsig) as Hrun.
  unfold observe_outcome in Hrun.
  destruct (resample_array _ _ _ _) as [a|e].
  - simpl in Hrun. destruct (with_noise _ _) as [a'|e];
      rewrite Hrun; simpl; (repeat split; try done); eauto.
  - destruct Hrun as [junk ->]. simpl. repeat split; eauto.
Qed.

End Properties.

(** * The claims *)

(** C3.  A system name that is not a key of the telescope's [systems]
    makes [observe] fail with the lookup error of the mapping (Python's
    [KeyError], the specification's configuration error), whatever the
    signal and the [noise] flag; the world is left exactly as it was, so no
    array has been created. *)
Theorem observe_unknown_system `{Collaborators} (system : option string)
    (noise : bool) (w : World) :
  systems (w_self w) !! system = None ->
  observe system noise w = (Raise (KeyError system), w).
Proof.
  intros Hnone. rewrite observe_prefix. unfold backend_of. by rewrite Hnone.
Qed.

(** C7.  A call of [observe] leaves the telescope, the attributes of the
    signal and its data array as they were, and every array that existed
    before the call too; without noise it does not touch the random
    generator, and the array it returns (or the exception it raises) is a
    function of the backend registered under the name, the attributes of
    the signal and its data, so that a second call returns the same. *)
Theorem observe_is_pure `{Collaborators} (system : option string)
    (noise : bool) (w : World) :
  let w' := snd (observe system noise w) in
  (w_self w' = w_self w /\ w_signal w' = w_signal w /\
   w_data w' = w_data w /\
   exists created, w_arrays w' = w_arrays w ++ created) /\
  (noise = false ->
   w_rng w' = w_rng w /\ w_noise_calls w' = w_noise_calls w) /\
  returned (observe system false w) =
    observe_model (backend_of (w_self w) system) system
      (w_signal w) (w_data w) /\
  returned (observe system false (snd (observe system noise w))) =
    returned (observe system false w).
Proof.
  destruct (observe_frame system noise w)
    as (Hself & Hsig & Hdata & Harr & Hrng & Hcalls).
  simpl. repeat split; try done.
  - apply observe_quiet_returned.
  - rewrite !observe_quiet_returned. by rewrite Hself, Hsig, Hdata.
Qed.

(** C6.  The quantizer replaces the array at [out] by its clipped samples.
    For a voltage signal a sample above [voltage_clip] (a non-negative
    threshold) becomes [voltage_clip], a sample below [-voltage_clip] becomes
    [-voltage_clip], and a sample in between is kept; for any other kind a
    sample above [intensity_clip] becomes [intensity_clip], every other sample
    is kept (there is no lower clip), and no sample exceeds the threshold
    afterwards. *)
Theorem quantizer_clipping `{Collaborators} (sig : Signal) (out : loc)
    (w : World) :
  fst (clip_out sig out w) = Ok tt /\
  deref out (snd (clip_out sig out w))
    = map (map (clip_sample sig)) (deref out w) /\
  forall x : Q,
    (SignalType sig = "voltage" ->
     let clip := gauss_draw_max (MetaData_ sig) in
     ((0 <= clip)%Q -> (clip < x)%Q -> clip_sample sig x = clip) /\
     ((x < - clip)%Q -> clip_sample sig x = (- clip)%Q) /\
     ((- clip <= x)%Q -> (x <= clip)%Q -> clip_sample sig x = x)) /\
    (SignalType sig <> "voltage" ->
     let clip := gamma_draw_max (MetaData_ sig) in
     ((clip < x)%Q -> clip_sample sig x = clip) /\
     ((x <= clip)%Q -> clip_sample sig x = x) /\
     (clip_sample sig x <= clip)%Q).
Proof.
  rewrite clip_out_modify. simpl. split; [done|]. split.
  { by rewrite deref_modify. }
  intros x. unfold clip_sample, is_voltage. split.
  - intros ->. simpl. unfold where_gt, where_lt.
    set (c := gauss_draw_max (MetaData_ sig)).
    destruct (Qlt_bool c x) eqn:Hhi.
    + apply Qlt_bool_iff in Hhi.
      destruct (Qlt_bool c (- c)) eqn:Hlo.
      * apply Qlt_bool_iff in Hlo. repeat split; intros; try done; lra.
      * apply Qlt_bool_false in Hlo. repeat split; intros; try done; lra.
    + apply Qlt_bool_false in Hhi.
      destruct (Qlt_bool x (- c)) eqn:Hlo.
      * apply Qlt_bool_iff in Hlo. repeat split; intros; try done; lra.
      * apply Qlt_bool_false in Hlo. repeat split; intros; try done; lra.
  - intros Hkind. apply String.eqb_neq in Hkind. rewrite Hkind. simpl.
    unfold where_gt. set (c := gamma_draw_max (MetaData_ sig)).
    destruct (Qlt_bool c x) eqn:Hhi.
    + apply Qlt_bool_iff in Hhi. repeat split; intros; try done; lra.
    + apply Qlt_bool_false in Hhi. repeat split; intros; try done; lra.
Qed.

(** C9.  The constructor of [BaseSignal] raises [NameError] for the name
    [dype] whatever its arguments, before [_dtype] is set; if the guard reads
    the argument [dtype] instead the constructor accepts every value; and
    whichever name the guard reads, the "data type not supported" error is
    never raised. *)
Theorem init_never_rejects_dtype
    (fcent bandwidth sample_rate dtype : BaseSignal.pyval)
    (self : BaseSignal.Instance) :
  (fst (BaseSignal.__init__ fcent bandwidth sample_rate dtype self)
     = Raise (NameError "dype") /\
   BaseSignal._dtype
     (snd (BaseSignal.__init__ fcent bandwidth sample_rate dtype self))
     = BaseSignal._dtype self) /\
  (fst (BaseSignal.init_reading_dtype fcent bandwidth sample_rate dtype self)
     = Ok tt /\
   BaseSignal._dtype
     (snd (BaseSignal.init_reading_dtype fcent bandwidth sample_rate dtype self))
     = Some dtype) /\
  (forall guard_name : string,
     fst (BaseSignal.init_body guard_name fcent bandwidth sample_rate dtype self)
       <> Raise (ValueError BaseSignal.unsupported_msg)).
Proof.
  split; [|split].
  - by split.
  - unfold BaseSignal.init_reading_dtype, BaseSignal.init_body. simpl.
    unfold BaseSignal.or_. simpl.
    by destruct (BaseSignal.is_ dtype (BaseSignal.VType np_float32)).
  - intros guard_name. unfold BaseSignal.init_body.
    destruct (BaseSignal.load_name _ guard_name) as [v|e] eqn:Hload.
    + unfold BaseSignal.or_. simpl.
      by destruct (BaseSignal.is_ v (BaseSignal.VType np_float32)).
    + simpl. unfold BaseSignal.load_name in Hload.
      destruct (List.find _ _); [done|].
      destruct (existsb _ _); [done|]. by injection Hload as <-.
Qed.

(** C8.  After [_set_draw_norm] a [np.float32] signal has [_draw_max = 200]
    and [_draw_norm = 1], and a [np.int8] signal has [_draw_max = 127], the
    largest [int8], and [_draw_norm] that maximum divided by the 0.999
    quantile of the normal distribution; the other attributes are kept, so
    that the two values depend on the representation alone. *)
Theorem draw_norm_by_representation (norm_ppf : Q -> Q)
    (self : BaseSignal.Instance) :
  (BaseSignal._dtype self = Some (BaseSignal.VType np_float32) ->
   BaseSignal._set_draw_norm norm_ppf self =
     (Ok tt,
      BaseSignal.mkInstance (BaseSignal._fcent self) (BaseSignal._bw self)
        (BaseSignal._samprate self) (BaseSignal._dtype self)
        (BaseSignal.VNum 200) (BaseSignal.VNum 1))) /\
  (BaseSignal._dtype self = Some (BaseSignal.VType np_int8) ->
   BaseSignal._set_draw_norm norm_ppf self =
     (Ok tt,
      BaseSignal.mkInstance (BaseSignal._fcent self) (BaseSignal._bw self)
        (BaseSignal._samprate self) (BaseSignal._dtype self)
        (BaseSignal.VNum 127)
        (BaseSignal.VNum (127 / norm_ppf (999 # 1000))))) /\
  (forall (other : BaseSignal.Instance) (t : dtype),
     t = np_float32 \/ t = np_int8 ->
     BaseSignal._dtype self = Some (BaseSignal.VType t) ->
     BaseSignal._dtype other = Some (BaseSignal.VType t) ->
     BaseSignal._draw_max (snd (BaseSignal._set_draw_norm norm_ppf self))
       = BaseSignal._draw_max (snd (BaseSignal._set_draw_norm norm_ppf other))
     /\
     BaseSignal._draw_norm (snd (BaseSignal._set_draw_norm norm_ppf self))
       = BaseSignal._draw_norm (snd (BaseSignal._set_draw_norm norm_ppf other))).
Proof.
  unfold BaseSignal._set_draw_norm. split; [|split].
  - intros Hd. rewrite Hd. simpl. by rewrite ?Hd.
  - intros Hd. rewrite Hd. simpl. by rewrite ?Hd.
  - intros other t [-> | ->] Hd Hd'; rewrite Hd, Hd'; by split.
Qed.


(** C2.  When the two sample intervals that [observe] computes are positive
    doubles, it raises the sample-rate error (the [ValueError] of its last
    branch) exactly when the signal's interval [dt_sig] is greater than the
    telescope's [dt_tel]; when it does, the world is as before the call:
    nothing was allocated or printed. *)
Theorem observe_sample_rate_error `{Collaborators} (system : option string)
    (noise : bool) (w : World) (b : Backend) (dt_sig dt_tel : Q) :
  backend_of (w_self w) system = Some (Some b) ->
  dt_tel_of (samprate b) = Ok (Fin dt_tel) ->
  dt_sig_of (w_signal w) = Ok (Fin dt_sig) ->
  (0 < dt_tel)%Q ->
  (0 < dt_sig)%Q ->
  ((dt_tel < dt_sig)%Q ->
   observe system noise w = (Raise (ValueError sample_rate_msg), w)) /\
  (fst (observe system noise w) = Raise (ValueError sample_rate_msg) ->
   (dt_tel < dt_sig)%Q).
Proof.
  intros Hb Htel Hsig Htel0 Hsig0. split.
  - intros Hlt. rewrite observe_prefix, Hb, Htel, Hsig.
    unfold bind. by rewrite resample_rejects.
  - intros Hraise. apply returned_raise in Hraise.
    rewrite (observe_returned system noise w b _ _ Hb Htel Hsig) in Hraise.
    destruct (resample_array _ _ _ _) as [a|e] eqn:Hres; simpl in Hraise.
    + by destruct noise.
    + injection Hraise as ->.
      apply resample_array_rate_error in Hres as [Hne Hge].
      simpl in Hne, Hge. apply Qeq_bool_false in Hne.
      apply Qlt_bool_false in Hge.
      apply Qle_lteq in Hge as [Hlt|Heq]; [done|]. destruct Hne.
      by symmetry.
Qed.

(** C4, as the code has it.  Where [dt_sig == dt_tel], [observe] without
    noise returns the data clipped to the limits of the representation and
    cast to its type: an array of the same shape, and the data themselves
    when every sample is within the limits and is a value of the type. *)
Theorem observe_passthrough_quantized `{Collaborators}
    (system : option string) (w : World) (b : Backend)
    (dt_sig dt_tel : pyfloat) :
  backend_of (w_self w) system = Some (Some b) ->
  dt_tel_of (samprate b) = Ok dt_tel ->
  dt_sig_of (w_signal w) = Ok dt_sig ->
  feq dt_sig dt_tel = true ->
  let sig := w_signal w in
  returned (observe system false w) = Ok (quantized sig (w_data w)) /\
  row_lengths (quantized sig (w_data w)) = row_lengths (w_data w) /\
  (Forall (Forall (fun x => within_clip sig x /\
                            astype (data_type (MetaData_ sig)) x = x))
          (w_data w) ->
   returned (observe system false w) = Ok (w_data w)).
Proof.
  intros Hb Htel Hsig Heq. simpl.
  assert (Hret : returned (observe system false w)
                 = Ok (quantized (w_signal w) (w_data w))).
  { rewrite (observe_returned system false w b dt_sig dt_tel Hb Htel Hsig).
    by rewrite resample_array_passthrough. }
  split; [done|]. split; [apply row_lengths_quantized|].
  intros Hall. rewrite Hret. f_equal. unfold quantized, clipped.
  rewrite map_map.
  rewrite <- (map_map_fixed (fun x => x) (w_data w)) at 2
    by (apply Forall_forall; intros r _; by apply Forall_forall).
  apply map_ext_Forall. eapply Forall_impl; [exact Hall|].
  intros r Hr. simpl. rewrite map_map, map_id.
  rewrite <- (map_id r) at 2. apply map_ext_Forall.
  eapply Forall_impl; [exact Hr|]. intros x [Hclip Hcast]. simpl.
  by rewrite (clip_sample_within _ _ Hclip).
Qed.

(** C10.  The override of the time step depends on the truth value of
    [subintlen], not on its presence, and not on the kind of the signal.
    In the world that the resampling stage leaves, the statement of lines
    117-120 keeps the backend's [dt_tel] and prints nothing when [subintlen]
    is [None] or zero; when it is a number that is not zero it binds
    [subintlen * 1000.0] to [dt_tel] and prints it.  That value is the time
    step in the call of line 123, and what the statement prints is all that
    [observe] prints after the resampling stage. *)
Theorem subintlen_override_by_truthiness `{Collaborators}
    (system : option string) (noise : bool) (w w0 : World) (b : Backend)
    (dt_sig dt_tel : pyfloat) (out : loc) :
  backend_of (w_self w) system = Some (Some b) ->
  dt_tel_of (samprate b) = Ok dt_tel ->
  dt_sig_of (w_signal w) = Ok dt_sig ->
  let sig := w_signal w in
  resample sig dt_sig dt_tel w = (Ok out, w0) ->
  let printed := w_stdout (snd (observe system noise w)) in
  ((subintlen sig = None \/
    exists s, subintlen sig = Some s /\ is_zero s = true) ->
   noise_dt sig dt_tel w0 = (Ok dt_tel, w0) /\
   printed = w_stdout w0) /\
  (forall s,
     subintlen sig = Some s -> is_zero s = false ->
     fst (noise_dt sig dt_tel w0) = Ok (fmul s (Fin 1000)) /\
     printed = w_stdout w0 ++ [msg_subint (fmul s (Fin 1000))]).
Proof.
  intros Hb Htel Hsig. simpl. intros Hres.
  rewrite (observe_stdout system noise w w0 b dt_sig dt_tel out Hb Htel Hsig
             Hres).
  rewrite noise_dt_run. unfold noise_time, finish_world, subint_lines.
  split.
  - intros [-> | (s & -> & ->)]; rewrite app_nil_r; by destruct w0.
  - by intros s -> ->.
Qed.

(** * The claims on the worked observations *)

Local Ltac by_computation :=
  vm_compute;
  first [ reflexivity
        | discriminate
        | let Hc := fresh in intros Hc; discriminate Hc ].

(** ** Doubles

    The values that CPython gives: [0.1] is
    [3602879701896397 / 2 ^ 55]; [1 // 0.1] is [9.0] and [1 % 0.1] is
    just below [0.1]; [-0.7 // 0.2] is [-4.0]; [1 / 5e-324] is [inf]. *)
Example double_of_a_tenth :
  fl (1 # 10) = Fin (3602879701896397 # 36028797018963968).
Proof. by_computation. Qed.

Example floor_division_by_a_tenth :
  floordiv (Fin 1) (fl (1 # 10)) = Ok (Fin 9) /\
  mod_ (Fin 1) (fl (1 # 10))
    = Ok (Fin (3602879701896395 # 36028797018963968)) /\
  floordiv (fl (-7 # 10)) (fl (2 # 10)) = Ok (Fin (-4)) /\
  truediv (Fin 1) (Fin (pow2 (-1074))) = Ok PInf.
Proof. repeat split; by_computation. Qed.

(** Thirty samples over one second at the rate 5 are rebinned onto
    [int(1.0 // 0.1) = 9] samples; three samples over 0.12000000000000001
    pass through; twenty-nine samples over 1.16 are rebinned onto 28. *)
Example rounding_decides_the_branch :
  feq (mod_value (fl (1 # 10)) (fdiv (Fin 1) (Fin 30))) (Fin (pow2 (-57)))
    = true /\
  and_then (returned (@observe reference (Some "slow") false w_thirty))
    (fun a => Ok (row_lengths a)) = Ok [9%nat] /\
  dt_sig_of (w_signal w_near_equal) = dt_tel_of (samprate guppi_lband) /\
  returned (@observe reference lband false w_near_equal) = Ok [[1; 2; 3]%Q] /\
  dt_sig_of (w_signal w_near_miss)
    = Ok (Fin (2882303761517117 # 72057594037927936)) /\
  and_then (returned (@observe reference lband false w_near_miss))
    (fun a => Ok (row_lengths a)) = Ok [28%nat].
Proof. repeat split; by_computation. Qed.

(** ** The claims *)

(** The unregistered name "Lband". *)
Lemma observe_unknown_system_example :
  @observe reference (Some "Lband") false w_pass
    = (Raise (KeyError (Some "Lband")), w_pass).
Proof.
  apply (@observe_unknown_system reference (Some "Lband") false w_pass).
  by_computation.
Defined.



(** The signal sampled more slowly than the backend is rejected. *)
Lemma observe_sample_rate_error_example :
  @observe reference lband true w_slow
    = (Raise (ValueError sample_rate_msg), w_slow).
Proof.
  destruct (@observe_sample_rate_error reference lband true w_slow
              guppi_lband (double (6 # 100)) (double (4 # 100)))
    as (Hraises & _); [by_computation..|].
  apply Hraises. by_computation.
Defined.

(** Samples within the limits that are [int8] values pass unchanged. *)
Lemma observe_passthrough_quantized_example :
  returned (@observe reference lband false w_pass) = Ok (w_data w_pass).
Proof.
  apply (@observe_passthrough_quantized reference lband w_pass guppi_lband
           (fl (4 # 100)) (fl (4 # 100)));
    try by_computation.
  repeat constructor; by_computation.
Defined.

(** C4, as stated, fails on the code: with [dt_sig == dt_tel] and no noise,
    a sample of [-128] in an [int8] voltage signal comes back as [-127], and
    a sample of [300] in a [float32] voltage signal comes back as [200]. *)
Lemma passthrough_is_not_identity :
  dt_sig_of (w_signal w_pass_int8_min) = dt_tel_of (samprate guppi_lband) /\
  returned (@observe reference lband false w_pass_int8_min)
    = Ok [[1; 2; 3; -127]%Q] /\
  returned (@observe reference lband false w_pass_int8_min)
    <> Ok (w_data w_pass_int8_min) /\
  dt_sig_of (w_signal w_pass_float32) = dt_tel_of (samprate guppi_lband) /\
  returned (@observe reference lband false w_pass_float32)
    = Ok [[1; 2; 3; 200]%Q] /\
  returned (@observe reference lband false w_pass_float32)
    <> Ok (w_data w_pass_float32).
Proof. repeat split; by_computation. Qed.

(** A sub-integration length of zero: the time step stays the backend's,
    and the call prints the rates only. *)
Lemma subintlen_override_by_truthiness_example :
  w_stdout (snd (@observe reference lband false w_subint_zero))
    = [msg_rates (Fin 100) (Fin 25)].
Proof.
  pose (sig := w_signal w_subint_zero).
  pose (stage := @resample reference sig (fl (1 # 100)) (fl (4 # 100))
                   w_subint_zero).
  destruct (@subintlen_override_by_truthiness reference lband false
              w_subint_zero (snd stage) guppi_lband (fl (1 # 100))
              (fl (4 # 100)) (local 0))
    as (Hfalsy & _); [by_computation..|].
  destruct Hfalsy as [_ Hprinted].
  { right. exists (Fin 0). split; by_computation. }
  rewrite Hprinted. by_computation.
Defined.

(** C5.  On a signal that carries the sub-integration length [0.0], an
    intensity signal of three channels observed with the L-band system of
    the preset telescope, the statement of lines 117-120 does not replace
    the time step: it returns the backend's [dt_tel = 0.04], not [0.0 *
    1000.0], and prints nothing, so that the call prints the sample rates
    only; and when noise is requested the call ends at line 123 with
    [AttributeError], no noise generator being called with any time step. *)
Lemma subintlen_zero_is_not_applied :
  let sig := w_signal w_subint_zero in
  subintlen sig = Some (Fin 0) /\
  dt_tel_of (samprate guppi_lband) = Ok (fl (4 # 100)) /\
  (forall w, noise_dt sig (fl (4 # 100)) w = (Ok (fl (4 # 100)), w)) /\
  fl (4 # 100) <> fmul (Fin 0) (Fin 1000) /\
  w_stdout (snd (@observe reference lband false w_subint_zero))
    = [msg_rates (Fin 100) (Fin 25)] /\
  fst (@observe reference lband true w_subint_zero)
    = Raise (AttributeError "radiometer_noise") /\
  w_noise_calls (snd (@observe reference lband true w_subint_zero)) = [].
Proof. repeat split; by_computation. Qed.

(** A voltage sample of 300 is clipped to 127. *)
Lemma quantizer_clipping_example :
  clip_sample (w_signal w_pass) 300 = 127%Q.
Proof.
  destruct (@quantizer_clipping reference (w_signal w_pass) (local 0) w_pass)
    as (_ & _ & Hsample).
  destruct (Hsample 300%Q) as [Hvoltage _].
  destruct (Hvoltage eq_refl) as (Habove & _).
  apply Habove; by_computation.
Defined.

(** Without noise the random generator is where it was. *)
Lemma observe_is_pure_example :
  w_rng (snd (@observe reference lband false w_decimate)) = w_rng w_decimate.
Proof.
  destruct (@observe_is_pure reference lband false w_decimate)
    as (_ & Hquiet & _).
  exact (proj1 (Hquiet eq_refl)).
Defined.

(** A single precision signal gets the limit 200 and the norm 1. *)
Lemma draw_norm_by_representation_example :
  BaseSignal._draw_max
    (snd (BaseSignal._set_draw_norm ppf_table float32_instance))
    = BaseSignal.VNum 200.
Proof.
  destruct (draw_norm_by_representation ppf_table float32_instance)
    as (Hfloat32 & _).
  rewrite Hfloat32; reflexivity.
Defined.

(** * Further properties of telescope.py *)

(** X1.  [add_system] always succeeds; afterwards the name maps to the pair
    it was given, every other name maps to what it mapped to before, and the
    other attributes of the telescope, the signal and the arrays are as they
    were. *)
Theorem add_system_lookup (name_ : option string) (rcv : option Receiver)
    (bak : option Backend) (w : World) :
  let w' := snd (add_system name_ rcv bak w) in
  fst (add_system name_ rcv bak w) = Ok tt /\
  systems (w_self w') !! name_ = Some (rcv, bak) /\
  (forall other, other <> name_ ->
     systems (w_self w') !! other = systems (w_self w) !! other) /\
  (name (w_self w') = name (w_self w) /\
   aperture (w_self w') = aperture (w_self w) /\
   area (w_self w') = area (w_self w) /\
   gain (w_self w') = gain (w_self w) /\
   Tsys (w_self w') = Tsys (w_self w)) /\
  (w_signal w' = w_signal w /\ w_data w' = w_data w /\
   w_arrays w' = w_arrays w /\ w_stdout w' = w_stdout w /\
   w_rng w' = w_rng w /\ w_noise_calls w' = w_noise_calls w).
Proof.
  simpl. split; [done|]. split; [apply lookup_insert_eq|].
  split; [|done]. intros other Hother. by apply lookup_insert_ne.
Qed.

(** X2.  Registering a name again replaces the earlier pair: the telescope
    is the one that the second call alone would have given.  Calls for two
    different names can be made in either order. *)
Theorem add_system_overwrites_and_commutes (n1 n2 : option string)
    (r1 r2 : option Receiver) (b1 b2 : option Backend) (w : World) :
  snd (add_two n1 r1 b1 n1 r2 b2 w) = snd (add_system n1 r2 b2 w) /\
  (n1 <> n2 ->
   snd (add_two n1 r1 b1 n2 r2 b2 w) = snd (add_two n2 r2 b2 n1 r1 b1 w)).
Proof.
  unfold add_two, bind, add_system. simpl. split.
  - by rewrite insert_insert_eq.
  - intros Hne. by rewrite insert_insert_ne.
Qed.

(** X3.  After [add_system] with a backend, [observe] on that name does not
    fail at the lookup: without noise it returns what the resampling of the
    signal at that backend's rate gives, whatever the telescope held
    before and whatever receiver was registered with the backend. *)
Theorem observe_after_add_system `{Collaborators} (name_ : option string)
    (rcv : option Receiver) (b : Backend) (w : World) :
  let w' := snd (add_system name_ rcv (Some b) w) in
  returned (observe name_ false w')
    = observe_model (Some (Some b)) name_ (w_signal w) (w_data w).
Proof.
  intros w'.
  assert (Hb : backend_of (w_self w') name_ = Some (Some b)).
  { unfold backend_of. simpl. by rewrite lookup_insert_eq. }
  by rewrite observe_quiet_returned, Hb.
Qed.

(** X4.  [add_system] for one name does not change what [observe] returns
    for another. *)
Theorem observe_other_system_unaffected `{Collaborators}
    (name_ other : option string) (rcv : option Receiver)
    (bak : option Backend) (w : World) :
  other <> name_ ->
  returned (observe other false (snd (add_system name_ rcv bak w)))
    = returned (observe other false w).
Proof.
  intros Hother. rewrite !observe_quiet_returned. simpl.
  unfold backend_of. simpl. by rewrite lookup_insert_ne.
Qed.

(** X5.  A system registered without a backend (the default of
    [add_system]) makes [observe] fail with [AttributeError] on
    [bak.samprate]; the world is left as it was. *)
Theorem observe_without_backend `{Collaborators} (system : option string)
    (noise : bool) (rcv : option Receiver) (w : World) :
  systems (w_self w) !! system = Some (rcv, None) ->
  observe system noise w = (Raise (AttributeError "samprate"), w).
Proof.
  intros Hsys. rewrite observe_prefix. unfold backend_of. by rewrite Hsys.
Qed.

(** X6.  A telescope as the constructor leaves it has the gain
    [area / (2 kB)], the area of a circular dish when none is given, and no
    system: [observe] then fails with [KeyError] for every name. *)
Theorem constructed_telescope `{Collaborators} (np_pi aperture_ : Q)
    (area_ Tsys_ : option Q) (name_ : option string) :
  let tel := __init__ np_pi aperture_ area_ Tsys_ name_ in
  gain_matches tel /\
  (area_ = None -> (area tel == np_pi * aperture_ * aperture_ / 4)%Q) /\
  (forall a, area_ = Some a -> area tel = a) /\
  (forall (w : World) (system : option string) (noise : bool),
     w_self w = tel ->
     observe system noise w = (Raise (KeyError system), w)).
Proof.
  simpl. split; [|split; [|split]].
  - unfold gain_matches. simpl. reflexivity.
  - intros ->. simpl. field.
  - by intros a ->.
  - intros w system noise Hw. rewrite observe_prefix, Hw. by unfold backend_of.
Qed.

Section MoreLemmas.
Context `{Collaborators}.

(** A call that returns went through every stage, without noise. *)
Lemma observe_ok_inv (system : option string) (noise : bool) (w : World)
    (a : ndarray) :
  returned (observe system noise w) = Ok a ->
  exists a0, a = quantized (w_signal w) a0.
Proof.
  intros Hret.
  destruct (backend_of (w_self w) system) as [[b|]|] eqn:Hb;
    [|by rewrite observe_prefix, Hb in Hret..].
  destruct (dt_tel_of (samprate b)) as [dt_tel|e] eqn:Htel;
    [|by rewrite observe_prefix, Hb, Htel in Hret].
  destruct (dt_sig_of (w_signal w)) as [dt_sig|e] eqn:Hsig;
    [|by rewrite observe_prefix, Hb, Htel, Hsig in Hret].
  rewrite (observe_returned _ _ _ b dt_sig dt_tel Hb Htel Hsig) in Hret.
  destruct (resample_array _ _ _ _) as [a0|e] eqn:Hres; [|done].
  simpl in Hret. destruct (with_noise _ _) as [a'|e] eqn:Hn; [|done].
  injection Hret as <-. by exists a'.
Qed.

Lemma observe_ok_location (system : option string) (noise : bool)
    (w w1 : World) (l : loc) :
  observe system noise w = (Ok l, w1) ->
  l = local (S (length (w_arrays w))) /\
  length (w_arrays w1) = S (S (length (w_arrays w))).
Proof.
  intros Hobs.
  destruct (backend_of (w_self w) system) as [[b|]|] eqn:Hb;
    [|by rewrite observe_prefix, Hb in Hobs..].
  destruct (dt_tel_of (samprate b)) as [dt_tel|e] eqn:Htel;
    [|by rewrite observe_prefix, Hb, Htel in Hobs].
  destruct (dt_sig_of (w_signal w)) as [dt_sig|e] eqn:Hsig;
    [|by rewrite observe_prefix, Hb, Htel, Hsig in Hobs].
  pose proof (observe_run system noise w b dt_sig dt_tel Hb Htel Hsig) as Hrun.
  unfold observe_outcome in Hrun.
  destruct (resample_array _ _ _ _) as [a|e].
  - simpl in Hrun. destruct (with_noise _ _) as [a'|e];
      rewrite Hrun in Hobs; [|done].
    injection Hobs as <- <-. simpl. split; [done|].
    rewrite length_app. simpl. lia.
  - destruct Hrun as [junk Hrun]. by rewrite Hrun in Hobs.
Qed.

(** The clipped sample is within the limits. *)
Lemma clip_sample_bounded (sig : Signal) (x : Q) :
  (SignalType sig = "voltage" -> (0 <= gauss_draw_max (MetaData_ sig))%Q) ->
  within_clip sig (clip_sample sig x).
Proof.
  unfold within_clip, clip_sample, is_voltage, where_gt, where_lt.
  destruct (String.eqb_spec (SignalType sig) "voltage") as [Hv|Hv].
  - intros Hc. specialize (Hc Hv).
    set (c := gauss_draw_max (MetaData_ sig)) in *.
    destruct (Qlt_bool c x) eqn:Hhi.
    + destruct (Qlt_bool c (- c)) eqn:Hlo.
      * apply Qlt_bool_iff in Hlo. lra.
      * apply Qlt_bool_false in Hlo. lra.
    + apply Qlt_bool_false in Hhi. destruct (Qlt_bool x (- c)) eqn:Hlo.
      * lra.
      * apply Qlt_bool_false in Hlo. lra.
  - intros _. set (c := gamma_draw_max (MetaData_ sig)).
    destruct (Qlt_bool c x) eqn:Hhi.
    + lra.
    + by apply Qlt_bool_false in Hhi.
Qed.

(** Truncation moves a number toward zero, and not past it. *)
Lemma Qtruncate_between (x : Q) :
  ((0 <= x)%Q ->
   (0 <= inject_Z (Qtruncate x))%Q /\ (inject_Z (Qtruncate x) <= x)%Q) /\
  ((x <= 0)%Q ->
   (x <= inject_Z (Qtruncate x))%Q /\ (inject_Z (Qtruncate x) <= 0)%Q).
Proof.
  destruct x as [n d]. unfold Qtruncate, Qle. simpl.
  rewrite !Z.mul_1_r. split; intros Hn.
  - destruct (Z.mul_quot_le n (Z.pos d)) as [Hlo Hhi]; [lia|lia|].
    split; [|lia]. apply Z.quot_pos; lia.
  - destruct (Z.mul_quot_ge n (Z.pos d)) as [Hlo Hhi]; [lia|lia|].
    split; [lia|]. nia.
Qed.

(** The cast to [np.int8] of a sample within a limit of at most 127. *)
Lemma astype_int8_bounded (c x : Q) :
  (0 <= c)%Q -> (c <= 127)%Q -> (- c <= x)%Q -> (x <= c)%Q ->
  (- c <= astype np_int8 x)%Q /\ (astype np_int8 x <= c)%Q /\
  is_integer (astype np_int8 x).
Proof.
  intros Hc Hc' Hlo Hhi. simpl.
  destruct (Qtruncate_between x) as [Hpos Hneg].
  assert (Hz : (- c <= inject_Z (Qtruncate x))%Q /\
               (inject_Z (Qtruncate x) <= c)%Q).
  { destruct (Qlt_le_dec x 0) as [Hx|Hx].
    - destruct Hneg as [? ?]; [lra|]. split; lra.
    - destruct Hpos as [? ?]; [done|]. split; lra. }
  assert (Hsmall : (-128 <= Qtruncate x <= 127)%Z).
  { destruct Hz as [Hz1 Hz2]. split.
    - rewrite Zle_Qle. change (inject_Z (-128)) with (-128)%Q. lra.
    - rewrite Zle_Qle. change (inject_Z 127) with 127%Q. lra. }
  unfold cast_int8.
  rewrite (proj2 (Z.leb_le _ _) (proj1 Hsmall)).
  rewrite (proj2 (Z.leb_le _ _) (proj2 Hsmall)). simpl.
  repeat split; try tauto. by eexists.
Qed.

(** The rows that the loop does not reach, and the loop on too many rows. *)
Lemma fill_rows_above f callee arg (rows : list (list Q)) :
  forall (ii : nat) (a : ndarray) (j : nat),
    (ii + length rows <= j)%nat ->
    snd (fill_rows f callee arg a ii rows) !! j = a !! j.
Proof.
  induction rows as [|row rest IH]; intros ii a j Hj; simpl in *; [done|].
  destruct (f row arg) as [v|]; [|done].
  destruct (a !! ii) as [old|] eqn:Hold; [|done].
  destruct (broadcast v (length old)) as [r|]; [|done].
  rewrite IH by lia. apply list_lookup_insert_ne. lia.
Qed.

Lemma fill_rows_overflow f callee arg (nc : nat) (rows : list (list Q)) :
  forall (ii : nat) (a : ndarray),
    Forall (fun r => length r = nc) a ->
    (ii <= length a)%nat ->
    (length a < ii + length rows)%nat ->
    Forall (fun row => exists v, f row arg = Some v /\ length v = nc) rows ->
    fst (fill_rows f callee arg a ii rows) = Raise (IndexError index_msg).
Proof.
  induction rows as [|row rest IH]; intros ii a Ha Hii Hlen Hrows;
    simpl in *; [lia|].
  apply Forall_cons in Hrows as [(v & -> & Hv) Hrest].
  destruct (a !! ii) as [old|] eqn:Hold; [|done].
  assert (Hold' : length old = nc).
  { rewrite Forall_lookup in Ha. by apply (Ha ii). }
  rewrite Hold', <- Hv, broadcast_exact.
  apply lookup_lt_Some in Hold.
  apply IH; [|rewrite length_insert; lia..|done].
  by apply Forall_insert.
Qed.

(** The loop of a resampling branch on data of too many rows. *)
Lemma resample_into_too_many_rows f callee arg (sig : Signal) (new_Nt : Z)
    (data : ndarray) (dt_sig dt_tel : pyfloat) :
  (0 <= out_rows sig)%Z ->
  (Z.to_nat (out_rows sig) < length data)%nat ->
  (0 <= new_Nt)%Z ->
  rows_fit f arg (Z.to_nat new_Nt) data ->
  resample_into f callee arg sig new_Nt data dt_sig dt_tel
    = Raise (IndexError index_msg).
Proof.
  intros Hrows Hmany Hcols Hfit. unfold resample_into.
  unfold negative_dimensions.
  rewrite (proj2 (Z.ltb_ge _ _) Hrows), (proj2 (Z.ltb_ge _ _) Hcols). simpl.
  pose proof (has_shape_zeros (out_rows sig) new_Nt) as [Hlen Hall].
  pose proof (fill_rows_overflow f callee arg (Z.to_nat new_Nt) data
                0%nat (zeros (out_rows sig) new_Nt) Hall
                ltac:(lia) ltac:(rewrite Hlen; simpl; lia) Hfit) as Hraise.
  destruct (fill_rows _ _ _ _ _ _) as [r a']. simpl in Hraise.
  by rewrite Hraise.
Qed.

(** The rows of a resampled array beyond those of the data. *)
Lemma resample_into_missing_rows f callee arg (sig : Signal) (new_Nt : Z)
    (data a : ndarray) (dt_sig dt_tel : pyfloat) :
  resample_into f callee arg sig new_Nt data dt_sig dt_tel = Ok a ->
  forall i,
    (length data <= i < Z.to_nat (out_rows sig))%nat ->
    a !! i = Some (replicate (Z.to_nat new_Nt) 0%Q).
Proof.
  unfold resample_into.
  destruct (negative_dimensions _ _); [done|].
  destruct (fill_rows _ _ _ _ _ _) as [[[]|e] a0] eqn:Hfill; [|done].
  destruct (is_zero dt_sig || is_zero dt_tel)%bool; [done|].
  intros [= <-] i Hi.
  replace a0 with (snd (fill_rows f callee arg
                          (zeros (out_rows sig) new_Nt) 0 data))
    by (by rewrite Hfill).
  rewrite fill_rows_above by (simpl; lia).
  unfold zeros. apply lookup_replicate_2. lia.
Qed.

End MoreLemmas.

(** X8.  For a signal kept in doubles (the builtin [float]) no sample of
    the array that [observe] returns is beyond the clip limits: it is at
    most [intensity_clip] for a signal that is not a voltage, and between
    [-voltage_clip] and [voltage_clip] (a non-negative limit) for a
    voltage. *)
Theorem observe_output_within_clip `{Collaborators} (system : option string)
    (noise : bool) (w : World) (a : ndarray) :
  returned (observe system noise w) = Ok a ->
  data_type (MetaData_ (w_signal w)) = py_float ->
  (SignalType (w_signal w) = "voltage" ->
   (0 <= gauss_draw_max (MetaData_ (w_signal w)))%Q) ->
  Forall (Forall (within_clip (w_signal w))) a.
Proof.
  intros Hret Hcast Hclip.
  destruct (observe_ok_inv _ _ _ _ Hret) as (a0 & ->).
  unfold quantized, clipped. rewrite map_map, map_fmap.
  apply Forall_fmap, Forall_forall. intros r _. simpl.
  rewrite map_map, map_fmap. apply Forall_fmap, Forall_forall.
  intros x _. simpl. rewrite Hcast. simpl.
  by apply clip_sample_bounded.
Qed.

(** X9.  For a voltage signal in the [np.int8] representation with a limit
    between 0 and 127, every sample of an array that [observe] returns is
    an integer between [-voltage_clip] and [voltage_clip]. *)
Theorem observe_int8_voltage_output `{Collaborators} (system : option string)
    (noise : bool) (w : World) (a : ndarray) :
  returned (observe system noise w) = Ok a ->
  data_type (MetaData_ (w_signal w)) = np_int8 ->
  SignalType (w_signal w) = "voltage" ->
  (0 <= gauss_draw_max (MetaData_ (w_signal w)))%Q ->
  (gauss_draw_max (MetaData_ (w_signal w)) <= 127)%Q ->
  Forall (Forall (fun x => within_clip (w_signal w) x /\ is_integer x)) a.
Proof.
  intros Hret Hty Hkind Hc Hc'.
  destruct (observe_ok_inv _ _ _ _ Hret) as (a0 & ->).
  unfold quantized, clipped. rewrite map_map, map_fmap.
  apply Forall_fmap, Forall_forall. intros r _. simpl.
  rewrite map_map, map_fmap. apply Forall_fmap, Forall_forall.
  intros x _. simpl. rewrite Hty.
  pose proof (clip_sample_bounded (w_signal w) x (fun _ => Hc)) as Hin.
  unfold within_clip, is_voltage in Hin |- *.
  rewrite Hkind in Hin |- *. simpl in Hin |- *. destruct Hin as [Hlo Hhi].
  destruct (astype_int8_bounded _ _ Hc Hc' Hlo Hhi) as (? & ? & ?).
  by repeat split.
Qed.

(** X11.  The array that [observe] returns is a new one: it is neither the
    signal's data array nor an array that existed before the call, and a
    later call, for any system and with or without noise, leaves it and the
    signal's data as they are. *)
Theorem observe_returns_fresh_array `{Collaborators}
    (system : option string) (noise : bool) (w w1 : World) (l : loc) :
  observe system noise w = (Ok l, w1) ->
  l <> signal_data /\
  (exists n, l = local n /\ (length (w_arrays w) <= n)%nat) /\
  (forall system' noise',
     deref l (snd (observe system' noise' w1)) = deref l w1 /\
     w_data (snd (observe system' noise' w1)) = w_data w).
Proof.
  intros Hobs. destruct (observe_ok_location _ _ _ _ _ Hobs) as [-> Hlen].
  split; [done|]. split; [exists (S (length (w_arrays w))); split; [done|lia]|].
  intros system' noise'.
  destruct (observe_frame system' noise' w1)
    as (_ & _ & Hdata & [created Harr] & _).
  destruct (observe_frame system noise w) as (_ & _ & Hdata1 & _).
  rewrite Hobs in Hdata1. simpl in Hdata1. split; [|congruence].
  simpl. rewrite Harr.
  rewrite !list_lookup_total_alt, lookup_app_l by lia. done.
Qed.

(** X12.  In the two resampling branches the number of rows is taken from
    the kind of the signal: when the data have more rows than that, and the
    resampling operator turns every row into the allocated number of
    samples, [observe] fails with [IndexError] on the first row beyond the
    allocated ones. *)
Theorem observe_too_many_rows `{Collaborators} (system : option string)
    (noise : bool) (w : World) (b : Backend) (dt_sig dt_tel : pyfloat) :
  backend_of (w_self w) system = Some (Some b) ->
  dt_tel_of (samprate b) = Ok dt_tel ->
  dt_sig_of (w_signal w) = Ok dt_sig ->
  is_zero dt_sig = false ->
  is_zero dt_tel = false ->
  (0 <= out_rows (w_signal w))%Z ->
  (Z.to_nat (out_rows (w_signal w)) < length (w_data w))%nat ->
  let sig := w_signal w in
  (feq dt_sig dt_tel = false ->
   feq (mod_value dt_tel dt_sig) (Fin 0) = true ->
   forall SampFactor,
     int_value (floordiv_value dt_tel dt_sig) = Ok SampFactor ->
     SampFactor <> 0%Z ->
     let new_Nt := (Nt sig / SampFactor)%Z in
     (0 <= new_Nt)%Z ->
     rows_fit down_sample SampFactor (Z.to_nat new_Nt) (w_data w) ->
     returned (observe system noise w) = Raise (IndexError index_msg)) /\
  (feq dt_sig dt_tel = false ->
   feq (mod_value dt_tel dt_sig) (Fin 0) = false ->
   flt dt_sig dt_tel = true ->
   forall new_Nt,
     int_value (floordiv_value (ObsTime sig) dt_tel) = Ok new_Nt ->
     (0 <= new_Nt)%Z ->
     rows_fit rebin new_Nt (Z.to_nat new_Nt) (w_data w) ->
     returned (observe system noise w) = Raise (IndexError index_msg)).
Proof.
  intros Hb Htel Hsig Hsig0 Htel0 Hrows Hmany. simpl. split.
  - intros Hne Hmod SampFactor Hfactor Hnz Hcols Hfit.
    rewrite (observe_returned _ _ _ b dt_sig dt_tel Hb Htel Hsig).
    rewrite (resample_array_decimate _ _ _ _ SampFactor) by done.
    by rewrite resample_into_too_many_rows.
  - intros Hne Hmod Hlt new_Nt Hcount Hcols Hfit.
    rewrite (observe_returned _ _ _ b dt_sig dt_tel Hb Htel Hsig).
    rewrite (resample_array_rebin _ _ _ _ new_Nt) by done.
    by rewrite resample_into_too_many_rows.
Qed.

(** X13.  In the two resampling branches the rows of the allocated array
    that have no row of data to fill them are left at zero. *)
Theorem resample_leaves_missing_rows_zero `{Collaborators}
    (sig : Signal) (dt_sig dt_tel : pyfloat) (w w' : World) (l : loc) :
  resample sig dt_sig dt_tel w = (Ok l, w') ->
  feq dt_sig dt_tel = false ->
  exists new_Nt,
    (feq (mod_value dt_tel dt_sig) (Fin 0) = true ->
     exists SampFactor,
       int_value (floordiv_value dt_tel dt_sig) = Ok SampFactor /\
       SampFactor <> 0%Z /\ new_Nt = (Nt sig / SampFactor)%Z) /\
    (feq (mod_value dt_tel dt_sig) (Fin 0) = false ->
     int_value (floordiv_value (ObsTime sig) dt_tel) = Ok new_Nt) /\
    forall i,
      (length (w_data w) <= i < Z.to_nat (out_rows sig))%nat ->
      deref l w' !! i = Some (replicate (Z.to_nat new_Nt) 0%Q).
Proof.
  intros Hres Hne.
  destruct (resample_ok_inv _ _ _ _ _ _ Hres) as (a & Ha & _ & _ & ->).
  unfold resample_array in Ha. rewrite Hne in Ha.
  unfold mod_ in Ha. destruct (is_zero dt_sig); [done|]. cbn [and_then] in Ha.
  destruct (feq (mod_value dt_tel dt_sig) (Fin 0)).
  - unfold floordiv in Ha. destruct (is_zero dt_sig); [done|].
    cbn [and_then] in Ha.
    destruct (int_value (floordiv_value dt_tel dt_sig)) as [SampFactor|e];
      [|done].
    cbn [and_then] in Ha. unfold int_floordiv in Ha.
    destruct (Z.eqb_spec SampFactor 0) as [Hz|Hnz]; [done|].
    cbn [and_then] in Ha.
    exists (Nt sig / SampFactor)%Z. split; [|split; [done|]].
    + intros _. by exists SampFactor.
    + by eapply resample_into_missing_rows.
  - destruct (flt dt_sig dt_tel); [|done].
    unfold floordiv in Ha. destruct (is_zero dt_tel); [done|].
    cbn [and_then] in Ha.
    destruct (int_value (floordiv_value (ObsTime sig) dt_tel)) as [new_Nt|e];
      [|done].
    cbn [and_then] in Ha.
    exists new_Nt. split; [done|]. split; [done|].
    by eapply resample_into_missing_rows.
Qed.

(** * Further properties of signal.py *)

(** X14.  For a [dtype] that is neither [np.float32] nor [np.int8],
    [_set_draw_norm] returns without changing the signal: [_draw_max] and
    [_draw_norm] keep the values they had. *)
Theorem set_draw_norm_ignores_other_dtypes (norm_ppf : Q -> Q)
    (self : BaseSignal.Instance) (d : BaseSignal.pyval) :
  BaseSignal._dtype self = Some d ->
  d <> BaseSignal.VType np_float32 ->
  d <> BaseSignal.VType np_int8 ->
  BaseSignal._set_draw_norm norm_ppf self = (Ok tt, self).
Proof.
  intros Hd Hf Hi. unfold BaseSignal._set_draw_norm. rewrite Hd.
  assert (Hf' : BaseSignal.is_ d (BaseSignal.VType np_float32) = false).
  { destruct d as [| | | |t|]; try done. by destruct t. }
  assert (Hi' : BaseSignal.is_ d (BaseSignal.VType np_int8) = false).
  { destruct d as [| | | |t|]; try done. by destruct t. }
  by rewrite Hf', Hi'.
Qed.

(** X15.  [_set_draw_norm] can be called again without effect: the second
    call leaves the signal as the first one left it and ends as the first
    did. *)
Theorem set_draw_norm_idempotent (norm_ppf : Q -> Q)
    (self : BaseSignal.Instance) :
  BaseSignal._set_draw_norm norm_ppf
    (snd (BaseSignal._set_draw_norm norm_ppf self))
  = BaseSignal._set_draw_norm norm_ppf self.
Proof.
  unfold BaseSignal._set_draw_norm.
  destruct self as [fc bw sr [d|] dm dn]; simpl; [|done].
  destruct (BaseSignal.is_ d (BaseSignal.VType np_float32)) eqn:Hf;
    destruct (BaseSignal.is_ d (BaseSignal.VType np_int8)) eqn:Hi;
    simpl; by rewrite ?Hf, ?Hi.
Qed.

(** X16.  The constructor never sets [_dtype]: on a new object it raises
    before the assignment, so that [_set_draw_norm] on what it leaves fails
    with [AttributeError], and [_draw_max] and [_draw_norm] stay at the
    values of the class, [None] and [1]. *)
Theorem constructor_leaves_no_dtype (norm_ppf : Q -> Q)
    (fcent bandwidth sample_rate dtype : BaseSignal.pyval) :
  let left := snd (BaseSignal.__init__ fcent bandwidth sample_rate dtype
                     BaseSignal.new_instance) in
  BaseSignal._dtype left = None /\
  BaseSignal._fcent left = Some fcent /\
  BaseSignal._bw left = Some bandwidth /\
  BaseSignal._samprate left = Some sample_rate /\
  BaseSignal._set_draw_norm norm_ppf left
    = (Raise (AttributeError "_dtype"), left) /\
  BaseSignal._draw_max left = BaseSignal.VNone /\
  BaseSignal._draw_norm left = BaseSignal.VNum 1.
Proof. by repeat split. Qed.

(** * The further properties on worked examples *)

(** Registering a third system on the preset leaves its L-band system. *)
Lemma add_system_lookup_example :
  systems (w_self w_bare_system) !! lband = systems GBT !! lband.
Proof.
  destruct (add_system_lookup (Some "bare") None None w_pass)
    as (_ & _ & Hother & _).
  apply Hother. by_computation.
Defined.

(** Two systems registered in either order. *)
Lemma add_system_overwrites_and_commutes_example :
  snd (add_two (Some "a") None None (Some "b") None (Some guppi_lband) w_pass)
  = snd (add_two (Some "b") None (Some guppi_lband) (Some "a") None None w_pass).
Proof.
  apply (add_system_overwrites_and_commutes (Some "a") (Some "b")).
  by_computation.
Defined.

(** The L-band observation is the same after the registration. *)
Lemma observe_other_system_unaffected_example :
  returned (@observe reference lband false w_bare_system)
    = returned (@observe reference lband false w_pass).
Proof.
  apply (@observe_other_system_unaffected reference (Some "bare") lband).
  by_computation.
Defined.

(** The system registered by name only cannot be observed with. *)
Lemma observe_without_backend_example :
  @observe reference (Some "bare") true w_bare_system
    = (Raise (AttributeError "samprate"), w_bare_system).
Proof.
  apply (@observe_without_backend reference (Some "bare") true None).
  by_computation.
Defined.

(** A dish of 100 m without a given area. *)
Lemma constructed_telescope_example :
  (area (__init__ (314159 # 100000) 100 None None None)
   == (314159 # 100000) * 100 * 100 / 4)%Q.
Proof.
  destruct (@constructed_telescope reference (314159 # 100000) 100 None None
              None) as (_ & Harea & _).
  by apply Harea.
Defined.

(** The sample of 300 comes back as 200. *)
Lemma observe_output_within_clip_example :
  Forall (Forall (within_clip (w_signal w_pass_float64))) [[1; 2; 3; 200]%Q].
Proof.
  apply (@observe_output_within_clip reference lband false w_pass_float64).
  - by_computation.
  - by_computation.
  - intros _. by_computation.
Defined.

(** The decimated [int8] voltage: the integers 2 and 29. *)
Lemma observe_int8_voltage_output_example :
  Forall (Forall (fun x => within_clip (w_signal w_decimate) x /\
                           is_integer x)) [[2; 29]%Q].
Proof.
  apply (@observe_int8_voltage_output reference lband false w_decimate);
    by_computation.
Defined.

(** The array of the decimated observation survives the next call. *)
Lemma observe_returns_fresh_array_example :
  deref (local 1)
    (snd (@observe reference lband false
            (snd (@observe reference lband false w_decimate))))
  = [[2; 29]%Q].
Proof.
  destruct (@observe_returns_fresh_array reference lband false w_decimate
              (snd (@observe reference lband false w_decimate)) (local 1))
    as (_ & _ & Hlater); [by_computation|].
  destruct (Hlater lband false) as [Hkept _]. rewrite Hkept. by_computation.
Defined.

(** Three rows of data for a one-row voltage signal. *)
Lemma observe_too_many_rows_example :
  returned (@observe reference lband false w_many_rows)
    = Raise (IndexError index_msg).
Proof.
  destruct (@observe_too_many_rows reference lband false w_many_rows
              guppi_lband (fl (1 # 100)) (fl (4 # 100)))
    as (Hdecimate & _); [by_computation..| |].
  - vm_compute. lia.
  - apply (Hdecimate ltac:(by_computation) ltac:(by_computation) 4%Z);
      [by_computation..|].
    repeat constructor; eexists; split; by_computation.
Defined.

(** One row of data for a three-channel intensity signal. *)
Lemma resample_leaves_missing_rows_zero_example :
  deref (local 0)
    (snd (@resample reference (w_signal w_few_rows) (fl (1 # 100))
            (fl (4 # 100)) w_few_rows)) !! 2%nat
  = Some [0; 0]%Q.
Proof.
  pose (sig := w_signal w_few_rows).
  pose (stage := @resample reference sig (fl (1 # 100)) (fl (4 # 100))
                   w_few_rows).
  destruct (@resample_leaves_missing_rows_zero reference sig (fl (1 # 100))
              (fl (4 # 100)) w_few_rows (snd stage) (local 0))
    as (new_Nt & Hdecimate & _ & Hzero); [by_computation..|].
  pose proof (Hzero 2%nat ltac:(vm_compute; lia)) as Hrow.
  destruct Hdecimate as (SampFactor & Hfactor & _ & ->); [by_computation|].
  vm_compute in Hfactor. injection Hfactor as <-. exact Hrow.
Defined.

(** A signal of doubles keeps the values of the class. *)
Lemma set_draw_norm_ignores_other_dtypes_example :
  BaseSignal._set_draw_norm ppf_table float64_instance
    = (Ok tt, float64_instance).
Proof.
  apply (set_draw_norm_ignores_other_dtypes ppf_table float64_instance
           (BaseSignal.VType py_float)); by_computation.
Defined.
